(** * dc-3d-visualizer: the ingestion-and-derivation pipeline of
    [datacenter-control/backend/app.py]

    A shallow embedding of the sensor/network loaders, the value parser and
    the rack roll-ups, with the properties the specification states about
    them.

    Conventions of the embedding.
    - A Python [str] is a [string] of bytes; [lower], [strip] and the [in]
      test act on ASCII, as they do on the sensor files the service reads.
    - A Python [float] is a [pyfloat]: a finite value is the rational it
      denotes, and [inf], [-inf] and [nan] are separate values.  Arithmetic
      on finite values is exact; binary64 rounding error is not modelled,
      only overflow to infinity is.
    - A [dict] is an association list in insertion order: assigning to an
      existing key keeps its position, a new key goes last.
    - Code that may raise returns a [result]; [try]/[except] becomes a
      match on it.  State that the code keeps in module globals is an
      explicit [registry] record threaded through the loaders. *)

From Stdlib Require Import ZArith QArith Qabs Qround Qreduction.
From Stdlib Require Import List Bool Lia Ascii String DecimalString.
From Stdlib Require Import Permutation Sorted.
Import ListNotations.

Set Implicit Arguments.

Open Scope string_scope.

(* ================================================================== *)
(** * Text *)

Module Text.

Definition is_upper (c : ascii) : bool :=
  let n := nat_of_ascii c in (65 <=? n)%nat && (n <=? 90)%nat.

Definition is_digit (c : ascii) : bool :=
  let n := nat_of_ascii c in (48 <=? n)%nat && (n <=? 57)%nat.

(** The ASCII characters [str.strip()] and [float()] treat as blank. *)
Definition is_space (c : ascii) : bool :=
  let n := nat_of_ascii c in
  ((9 <=? n)%nat && (n <=? 13)%nat) || ((28 <=? n)%nat && (n <=? 32)%nat).

Definition lower_char (c : ascii) : ascii :=
  if is_upper c then ascii_of_nat (nat_of_ascii c + 32) else c.

(** [s.lower()] *)
Fixpoint lower (s : string) : string :=
  match s with
  | EmptyString => EmptyString
  | String c s' => String (lower_char c) (lower s')
  end.

Fixpoint lstrip (s : string) : string :=
  match s with
  | EmptyString => EmptyString
  | String c s' => if is_space c then lstrip s' else s
  end.

Fixpoint rstrip (s : string) : string :=
  match s with
  | EmptyString => EmptyString
  | String c s' =>
      match rstrip s' with
      | EmptyString => if is_space c then EmptyString else String c EmptyString
      | r => String c r
      end
  end.

(** [s.strip()] *)
Definition strip (s : string) : string := rstrip (lstrip s).

(** [p in s] for two strings *)
Fixpoint contains (p s : string) : bool :=
  prefix p s ||
  match s with
  | EmptyString => false
  | String _ s' => contains p s'
  end.

(** [any(term in s for term in terms)] *)
Definition contains_any (terms : list string) (s : string) : bool :=
  existsb (fun t => contains t s) terms.

(** Truth value of a string: [if s] *)
Definition truthy (s : string) : bool :=
  match s with EmptyString => false | _ => true end.

Definition digit_val (c : ascii) : Z := Z.of_nat (nat_of_ascii c) - 48.

(** Value of a run of decimal digits, most significant first. *)
Fixpoint digits_val_acc (acc : Z) (s : string) : Z :=
  match s with
  | EmptyString => acc
  | String c s' => digits_val_acc (10 * acc + digit_val c) s'
  end.

Definition digits_val (s : string) : Z := digits_val_acc 0 s.

Fixpoint all_chars (p : ascii -> bool) (s : string) : bool :=
  match s with
  | EmptyString => true
  | String c s' => p c && all_chars p s'
  end.

End Text.

(** Results of code that may raise. *)
Inductive result (A : Type) : Type :=
| Ok (a : A)
| Err (msg : string).
Arguments Ok {A} a.
Arguments Err {A} msg.

Definition bind {A B} (r : result A) (k : A -> result B) : result B :=
  match r with Ok a => k a | Err m => Err m end.

Notation "'do' x <- r ; k" := (bind r (fun x => k))
  (at level 10, x name, r at level 100, k at level 200).

(* ================================================================== *)
(** * Numbers *)

(** A Python float. *)
Inductive pyfloat : Type :=
| Fin (q : Q)
| PInf
| NInf
| NaN.

Module Float.

(** Magnitudes from [2^1024 - 2^970] on round to infinity in binary64. *)
Definition overflow_bound : Q := inject_Z (2 ^ 1024 - 2 ^ 970).

Definition Qltb (a b : Q) : bool := negb (Qle_bool b a).

(** The float a rational is stored as. *)
Definition of_Q (q : Q) : pyfloat :=
  if Qle_bool overflow_bound (Qabs q)
  then (if Qle_bool 0 q then PInf else NInf)
  else Fin (Qred q).

Definition of_Z (z : Z) : pyfloat := of_Q (inject_Z z).

(** The float of a length or count: a list is never long enough to leave
    the range of the floats. *)
Definition of_len (n : nat) : pyfloat := Fin (inject_Z (Z.of_nat n)).

Definition zero : pyfloat := Fin 0.


Definition is_nan (x : pyfloat) : bool :=
  match x with NaN => true | _ => false end.

(** [a < b]; every comparison with [nan] is false. *)
Definition lt (a b : pyfloat) : bool :=
  match a, b with
  | NaN, _ | _, NaN => false
  | Fin x, Fin y => Qltb x y
  | NInf, NInf => false
  | NInf, _ => true
  | _, PInf => match a with PInf => false | _ => true end
  | _, _ => false
  end.

Definition gt (a b : pyfloat) : bool := lt b a.

(** [a == b] *)
Definition eqb (a b : pyfloat) : bool :=
  match a, b with
  | Fin x, Fin y => Qeq_bool x y
  | PInf, PInf | NInf, NInf => true
  | _, _ => false
  end.

Definition neg (a : pyfloat) : pyfloat :=
  match a with
  | Fin q => Fin (Qred (- q))
  | PInf => NInf
  | NInf => PInf
  | NaN => NaN
  end.

(** [a + b] *)
Definition add (a b : pyfloat) : pyfloat :=
  match a, b with
  | NaN, _ | _, NaN => NaN
  | Fin x, Fin y => of_Q (x + y)
  | PInf, NInf | NInf, PInf => NaN
  | PInf, _ | _, PInf => PInf
  | NInf, _ | _, NInf => NInf
  end.

(** [a * k] for a finite constant [k] *)
Definition scale (a : pyfloat) (k : Q) : pyfloat :=
  match a with
  | Fin x => of_Q (x * k)
  | NaN => NaN
  | PInf => if Qltb 0 k then PInf else if Qltb k 0 then NInf else NaN
  | NInf => if Qltb 0 k then NInf else if Qltb k 0 then PInf else NaN
  end.

Definition sign_of (q : Q) : pyfloat -> pyfloat :=
  fun inf => if Qltb q 0 then neg inf else inf.

(** [a / b]; a zero divisor raises [ZeroDivisionError]. *)
Definition div (a b : pyfloat) : result pyfloat :=
  match a, b with
  | _, Fin y =>
      if Qeq_bool y 0 then Err "ZeroDivisionError"
      else Ok match a with
              | Fin x => of_Q (x / y)
              | NaN => NaN
              | inf => sign_of y inf
              end
  | NaN, _ | _, NaN => Ok NaN
  | Fin _, _ => Ok zero
  | _, _ => Ok NaN
  end.

(** [max(xs)] for a non-empty list given as head and tail: a later item
    replaces the running maximum only when it compares greater. *)
Definition max_of (x : pyfloat) (xs : list pyfloat) : pyfloat :=
  fold_left (fun m y => if gt y m then y else m) xs x.

(** [sorted(xs)]: a stable sort by [<]. *)
Fixpoint insert (x : pyfloat) (l : list pyfloat) : list pyfloat :=
  match l with
  | [] => [x]
  | y :: l' => if lt x y then x :: l else y :: insert x l'
  end.

Definition sorted (xs : list pyfloat) : list pyfloat :=
  fold_left (fun acc x => insert x acc) xs [].

(** [sum(xs)]: left to right from the integer 0. *)
Definition sum (xs : list pyfloat) : pyfloat := fold_left add xs zero.

(** Round half to even. *)
Definition rne (q : Q) : Z :=
  let f := Qfloor q in
  let r := q - inject_Z f in
  if Qltb r (1 # 2) then f
  else if Qltb (1 # 2) r then f + 1
  else if Z.even f then f else f + 1.

(** [round(x, n)] with [n] decimals; infinities and nan are returned as
    they are. *)
Definition round (x : pyfloat) (n : nat) : pyfloat :=
  match x with
  | Fin q =>
      let p := inject_Z (10 ^ Z.of_nat n) in
      of_Q (inject_Z (rne (q * p)) / p)
  | _ => x
  end.

End Float.


(* ================================================================== *)
(** * Regular expressions, as far as [re.search] is used *)

Module Re.
Import Text.

(** Patterns: classes, sequence, greedy option, and greedy repetition of a
    class ([\d*], [\d+]) and one capturing group; the patterns of
    [app.py] need no more. *)
Inductive regex : Type :=
| Eps
| Chr (p : ascii -> bool)
| Seq (r1 r2 : regex)
| Opt (r : regex)
| Star (p : ascii -> bool)
| Plus (p : ascii -> bool)
| Group (r : regex).

(** What a successful match leaves: the unmatched rest of the text and
    the text of group 1, if the group took part. *)
Definition answer : Type := string * option string.

(** Greedy [p*] followed by [k], giving characters back one at a time. *)
Fixpoint star_then (p : ascii -> bool) (s : string)
    (k : string -> option answer) : option answer :=
  match s with
  | EmptyString => k EmptyString
  | String c s' =>
      if p c then
        match star_then p s' k with
        | Some a => Some a
        | None => k s
        end
      else k s
  end.

(** The backtracking matcher: [matches r s g k] matches [r] at the start
    of [s] and hands what is left, with the group captured so far, to [k];
    the first alternative that makes [k] succeed wins. *)
Fixpoint matches (r : regex) (s : string) (g : option string)
    (k : string -> option string -> option answer) : option answer :=
  match r with
  | Eps => k s g
  | Chr p =>
      match s with
      | String c s' => if p c then k s' g else None
      | EmptyString => None
      end
  | Seq r1 r2 => matches r1 s g (fun s' g' => matches r2 s' g' k)
  | Opt r' =>
      match matches r' s g k with
      | Some a => Some a
      | None => k s g
      end
  | Star p => star_then p s (fun s' => k s' g)
  | Plus p =>
      match s with
      | String c s' => if p c then star_then p s' (fun s' => k s' g) else None
      | EmptyString => None
      end
  | Group r' =>
      matches r' s g
        (fun s' _ => k s' (Some (substring 0 (length s - length s') s)))
  end.

(** [re.match(r, s)]: the text matched at the start of [s] and group 1. *)
Definition match_at (r : regex) (s : string) : option (string * option string) :=
  match matches r s None (fun rest g => Some (rest, g)) with
  | Some (rest, g) => Some (substring 0 (length s - length rest) s, g)
  | None => None
  end.

(** [re.search(r, s)]: the match at the leftmost position that has one,
    as [(match.group(), match.group(1))]. *)
Fixpoint search (r : regex) (s : string) : option (string * option string) :=
  match match_at r s with
  | Some m => Some m
  | None =>
      match s with
      | EmptyString => None
      | String _ s' => search r s'
      end
  end.

(** A literal text *)
Fixpoint lit (s : string) : regex :=
  match s with
  | EmptyString => Eps
  | String c s' => Seq (Chr (Ascii.eqb c)) (lit s')
  end.


Definition one_of (cs : string) (c : ascii) : bool :=
  contains (String c EmptyString) cs.

(** [[-+]?\d*\.?\d+(?:[eE][-+]?\d+)?] *)
Definition number_re : regex :=
  Seq (Opt (Chr (one_of "-+")))
 (Seq (Star is_digit)
 (Seq (Opt (Chr (one_of ".")))
 (Seq (Plus is_digit)
      (Opt (Seq (Chr (one_of "eE"))
           (Seq (Opt (Chr (one_of "-+")))
                (Plus is_digit))))))).

End Re.

(* ================================================================== *)
(** * Cells of a table and Python's conversions on them *)

(** What a cell of a [DataFrame] row holds. *)
Inductive cell : Type :=
| CNone
| CInt (z : Z)
| CFloat (f : pyfloat)
| CBool (b : bool)
| CStr (s : string).

Module Py.
Import Text Float.

(** [pd.isna(value)] on a scalar *)
Definition isna (v : cell) : bool :=
  match v with
  | CNone => true
  | CFloat NaN => true
  | _ => false
  end.


(** The longest run of digits at the start of [s], and what follows. *)
Fixpoint span_digits (s : string) : string * string :=
  match s with
  | EmptyString => (EmptyString, EmptyString)
  | String c s' =>
      if is_digit c
      then let (ds, r) := span_digits s' in (String c ds, r)
      else (EmptyString, s)
  end.

(** [float()] lets a single underscore stand between two digits; the
    underscores are dropped before the number is read.  [prev] is the
    character before [s]. *)
Fixpoint drop_underscores (prev : option ascii) (s : string) : result string :=
  match s with
  | EmptyString =>
      match prev with
      | Some "_"%char => Err "ValueError"
      | _ => Ok EmptyString
      end
  | String c s' =>
      let prev_digit := match prev with Some d => is_digit d | None => false end in
      if Ascii.eqb c "_" then
        if prev_digit then drop_underscores (Some c) s' else Err "ValueError"
      else
        match prev with
        | Some "_"%char =>
            if is_digit c
            then do r <- drop_underscores (Some c) s'; Ok (String c r)
            else Err "ValueError"
        | _ => do r <- drop_underscores (Some c) s'; Ok (String c r)
        end
  end.

(** An optional sign: is it negative, and what follows. *)
Definition read_sign (s : string) : bool * string :=
  match s with
  | String "-" s' => (true, s')
  | String "+" s' => (false, s')
  | _ => (false, s)
  end.

(** The exponent part: empty, or [e]/[E], an optional sign and digits up
    to the end of the text. *)
Definition read_exponent (s : string) : result Z :=
  match s with
  | EmptyString => Ok 0%Z
  | String c s' =>
      if Re.one_of "eE" c then
        let (neg, t) := read_sign s' in
        let (ds, r) := span_digits t in
        match ds, r with
        | String _ _, EmptyString =>
            Ok (if neg then (- digits_val ds)%Z else digits_val ds)
        | _, _ => Err "ValueError"
        end
      else Err "ValueError"
  end.

(** [m * 10^e] *)
Definition decimal (m e : Z) : Q :=
  if (0 <=? e)%Z then inject_Z (m * 10 ^ e)
  else inject_Z m / inject_Z (10 ^ (- e)).

(** An unsigned decimal numeral: digits, an optional point and digits, at
    least one digit in all, and an optional exponent. *)
Definition read_number (s : string) : result Q :=
  let (ip, r1) := span_digits s in
  let (fp, r2) :=
    match r1 with
    | String "." r => span_digits r
    | _ => (EmptyString, r1)
    end in
  match ip ++ fp with
  | EmptyString => Err "ValueError"
  | ds =>
      do e <- read_exponent r2;
      Ok (decimal (digits_val ds) (e - Z.of_nat (length fp)))
  end.

(** [inf], [infinity] and [nan], in any case *)
Definition read_special (s : string) : option pyfloat :=
  let l := lower s in
  if String.eqb l "inf" || String.eqb l "infinity" then Some PInf
  else if String.eqb l "nan" then Some NaN
  else None.

(** [float(s)] for a string *)
Definition float_of_string (s : string) : result pyfloat :=
  let t := strip s in
  do u <- (if contains "_" t then drop_underscores None t else Ok t);
  let (neg, body) := read_sign u in
  match read_special body with
  | Some f => Ok (if neg then Float.neg f else f)
  | None =>
      do q <- read_number body;
      Ok (of_Q (if neg then - q else q))
  end.

(** [float(value)] *)
Definition float (v : cell) : result pyfloat :=
  match v with
  | CNone => Err "TypeError"
  | CInt z =>
      match of_Z z with
      | Fin q => Ok (Fin q)
      | _ => Err "OverflowError"
      end
  | CFloat f => Ok f
  | CBool b => Ok (Fin (if b then 1 else 0))
  | CStr s => float_of_string s
  end.

(** [str(z)] for an integer *)
Definition str_of_Z (z : Z) : string := NilZero.string_of_int (Z.to_int z).

Fixpoint zeros (n : nat) : string :=
  match n with O => EmptyString | S n' => String "0" (zeros n') end.

(** A digit string without its trailing zeros (one digit is kept). *)
Fixpoint drop_trailing_zeros (s : string) : string :=
  match s with
  | EmptyString => EmptyString
  | String c s' =>
      if all_chars (Ascii.eqb "0") s' then String c EmptyString
      else String c (drop_trailing_zeros s')
  end.

Definition pow10 (e : Z) : Q := decimal 1 e.

(** The decimal exponent [e] of a positive rational: [10^e <= a < 10^(e+1)]. *)
Definition exponent10 (a : Q) : Z :=
  let d := (Z.of_nat (length (str_of_Z (Qnum a)))
            - Z.of_nat (length (str_of_Z (Zpos (Qden a)))))%Z in
  if Qle_bool (pow10 d) a then d else (d - 1)%Z.

(** The digits of a positive value to at most 17 significant places, and
    the position of the decimal point: the value is [0.digits * 10^decpt]. *)
Definition digits17 (a : Q) : string * Z :=
  let e := exponent10 a in
  let n := rne (a * pow10 (16 - e)) in
  if (10 ^ 17 <=? n)%Z
  then (drop_trailing_zeros (str_of_Z (n / 10)), (e + 2)%Z)
  else (drop_trailing_zeros (str_of_Z n), (e + 1)%Z).

Definition two_digits (z : Z) : string :=
  if (z <? 10)%Z then String "0" (str_of_Z z) else str_of_Z z.

(** [repr(x)] of a float: plain notation while the decimal point falls
    within the digits' reach, exponent notation otherwise. *)
Definition repr_float (x : pyfloat) : string :=
  match x with
  | PInf => "inf"
  | NInf => "-inf"
  | NaN => "nan"
  | Fin q =>
      if Qeq_bool q 0 then "0.0" else
      let sign := if Qltb q 0 then "-" else "" in
      let (ds, decpt) := digits17 (Qabs q) in
      let n := Z.of_nat (length ds) in
      sign ++
      (if ((-4 <? decpt) && (decpt <=? 16))%Z then
         if (decpt <=? 0)%Z then "0." ++ zeros (Z.to_nat (- decpt)) ++ ds
         else if (n <=? decpt)%Z then ds ++ zeros (Z.to_nat (decpt - n)) ++ ".0"
         else substring 0 (Z.to_nat decpt) ds ++ "." ++
              substring (Z.to_nat decpt) (length ds - Z.to_nat decpt) ds
       else
         let e := (decpt - 1)%Z in
         substring 0 1 ds ++
         (if (1 <? n)%Z then "." ++ substring 1 (length ds - 1) ds else "") ++
         "e" ++ (if (e <? 0)%Z then "-" else "+") ++ two_digits (Z.abs e))
  end.

(** [str(value)] *)
Definition str (v : cell) : string :=
  match v with
  | CNone => "None"
  | CInt z => str_of_Z z
  | CFloat f => repr_float f
  | CBool b => if b then "True" else "False"
  | CStr s => s
  end.

End Py.

(* ================================================================== *)
(** * Dictionaries *)

(** Keys with a decidable equality. *)
Class Key (K : Type) : Type := {
  key_eqb : K -> K -> bool;
  key_eqb_eq : forall a b, key_eqb a b = true <-> a = b
}.

#[export] Instance string_key : Key string :=
  {| key_eqb := String.eqb; key_eqb_eq := String.eqb_eq |}.

#[export] Instance Z_key : Key Z :=
  {| key_eqb := Z.eqb; key_eqb_eq := Z.eqb_eq |}.

Definition dict (K V : Type) : Type := list (K * V).

Module Dict.
Section Ops.
Context {K V : Type} `{Key K}.

(** [d[k] = v] *)
Fixpoint set (d : dict K V) (k : K) (v : V) : dict K V :=
  match d with
  | [] => [(k, v)]
  | (k', v') :: d' =>
      if key_eqb k' k then (k', v) :: d' else (k', v') :: set d' k v
  end.

(** [d.get(k)] *)
Fixpoint get (d : dict K V) (k : K) : option V :=
  match d with
  | [] => None
  | (k', v') :: d' => if key_eqb k' k then Some v' else get d' k
  end.

(** [k in d] *)
Definition mem (d : dict K V) (k : K) : bool :=
  match get d k with Some _ => true | None => false end.

Definition keys (d : dict K V) : list K := map fst d.
Definition values (d : dict K V) : list V := map snd d.

(** [len(d)] *)
Definition size (d : dict K V) : Z := Z.of_nat (List.length d).
End Ops.
End Dict.

(* ================================================================== *)
(** * The data model of [app.py] *)

(** An entry of a rack's [sensors] dictionary.  The key [raw_value], the
    printed form of [value], is not carried: nothing reads it back. *)
Module Sensor.
Record t : Type := make {
  value : pyfloat;
  status : string;
  units : string;
  type : string;                 (* 'sensor' or 'network' *)
  interface : option string      (* set on network entries only *)
}.
End Sensor.

(** An entry of a network file's [data] dictionary. *)
Module Iface.
Record t : Type := make {
  value : pyfloat;
  status : string;
  units : string
}.
End Iface.

(** The dictionary [calculate_network_metrics] returns. *)
Module Metrics.
Record t : Type := make {
  total_throughput : pyfloat;
  avg_throughput : pyfloat;
  max_throughput : pyfloat;
  interface_count : Z;
  status : string
}.

Definition empty : t := make (Fin 0) (Fin 0) (Fin 0) 0 "normal".
End Metrics.

(** A [DataFrame]: column labels and rows of cells. *)
Module Frame.
Record t : Type := make {
  columns : list string;
  rows : list (list cell)
}.

(** A row as [(col, row[col])] in column order; a position the row lacks
    reads as a missing value. *)
Fixpoint labelled (cols : list string) (row : list cell) : list (string * cell) :=
  match cols with
  | [] => []
  | c :: cs => (c, hd (CFloat NaN) row) :: labelled cs (tl row)
  end.

(** [df.iterrows()].  A cell is handed on as the table holds it: the
    common type pandas gives the cells of one row (an integer among floats
    becomes a float) is not modelled. *)
Definition iterrows (df : t) : list (list (string * cell)) :=
  map (labelled (columns df)) (rows df).
End Frame.

Module App.
Import Text Float.

(** ** [parse_sensor_value] *)
Definition parse_sensor_value (value : cell) : pyfloat :=
  if Py.isna value then Fin 0
  else
    match Py.float value with
    | Ok f => f
    | Err _ =>
        let clean_value := strip (Py.str value) in
        match Re.search Re.number_re clean_value with
        | Some (group, _) =>
            match Py.float_of_string group with
            | Ok f => f
            | Err _ => Fin 0
            end
        | None => Fin 0
        end
    end.

(** [a / b] on integers: the float of the exact quotient. *)
Definition truediv (a b : Z) : result pyfloat :=
  if (b =? 0)%Z then Err "ZeroDivisionError"
  else Ok (of_Q (inject_Z a / inject_Z b)).

(** ** [calculate_rack_status] *)

(** One turn of the loop over [sensors.items()], on the three counters
    [(critical_count, warning_count, normal_count)]. *)
Definition count_sensor (counts : Z * Z * Z) (item : string * Sensor.t)
    : Z * Z * Z :=
  let '(critical_count, warning_count, normal_count) := counts in
  let (sensor_name, sensor_data) := item in
  let status := lower (Sensor.status sensor_data) in
  if contains "critical" status || contains "non-recoverable" status then
    (critical_count + 1, warning_count, normal_count)%Z
  else if contains "non-critical" status || contains "warning" status then
    (critical_count, warning_count + 1, normal_count)%Z
  else if contains "ok" status || contains "normal" status then
    (critical_count, warning_count, normal_count + 1)%Z
  else
    let value := Sensor.value sensor_data in
    let sensor_lower := lower sensor_name in
    if contains "temp" sensor_lower || contains "temperature" sensor_lower then
      if gt value (Fin 85) then (critical_count + 1, warning_count, normal_count)%Z
      else if gt value (Fin 75) then (critical_count, warning_count + 1, normal_count)%Z
      else (critical_count, warning_count, normal_count + 1)%Z
    else (critical_count, warning_count, normal_count + 1)%Z.

Definition count_sensors (sensors : dict string Sensor.t) : Z * Z * Z :=
  fold_left count_sensor sensors (0, 0, 0)%Z.

(** [count > 0 and (count / total_sensors) > bound]: the quotient is
    computed only when the count is positive. *)
Definition share_exceeds (count total_sensors : Z) (bound : Q) : result bool :=
  if (0 <? count)%Z
  then do ratio <- truediv count total_sensors; Ok (gt ratio (Fin bound))
  else Ok false.

Definition calculate_rack_status (sensors : dict string Sensor.t) : result string :=
  let '(critical_count, warning_count, normal_count) := count_sensors sensors in
  let total_sensors := (critical_count + warning_count + normal_count)%Z in
  if (total_sensors =? 0)%Z then Ok "unknown"
  else
    do critical <- share_exceeds critical_count total_sensors 0.1;
    if critical then Ok "critical"
    else
      do warning <- share_exceeds warning_count total_sensors 0.2;
      if warning then Ok "warning" else Ok "normal".

(** ** [calculate_rack_temperature] *)

(** [l[start:stop]] for [0 <= start], [0 <= stop] *)
Definition slice {A} (l : list A) (start stop : nat) : list A :=
  firstn (stop - start) (skipn start l).

Definition collect_temp (temps : list pyfloat) (item : string * Sensor.t)
    : list pyfloat :=
  let (sensor_name, sensor_data) := item in
  let value := Sensor.value sensor_data in
  let sensor_lower := lower sensor_name in
  if (contains "temp" sensor_lower || contains "temperature" sensor_lower)
     && negb (contains "volt" sensor_lower)
  then if lt (Fin (-10)) value && lt value (Fin 120)
       then (temps ++ [value])%list else temps
  else temps.

Definition calculate_rack_temperature (sensors : dict string Sensor.t)
    : result pyfloat :=
  let temps := fold_left collect_temp sensors [] in
  match temps with
  | [] => Ok (Fin 40)
  | _ :: _ =>
      let temps_sorted := sorted temps in
      let n := List.length temps_sorted in
      let start := (n / 4)%nat in
      let stop := (3 * n / 4)%nat in
      let middle_temps :=
        if (4 <? n)%nat then slice temps_sorted start stop else temps in
      do mean <- div (sum middle_temps) (of_len (List.length middle_temps));
      Ok (round mean 1)
  end.

(** ** [calculate_rack_power] *)
Definition calculate_rack_power (sensors : dict string Sensor.t) : result pyfloat :=
  let power_values :=
    fold_left (fun (acc : list pyfloat) (item : string * Sensor.t) =>
      let (sensor_name, sensor_data) := item in
      if contains_any ["power"; "watt"; "current"; "amp"] (lower sensor_name)
      then (acc ++ [Sensor.value sensor_data])%list else acc) sensors [] in
  match power_values with
  | _ :: _ =>
      let total_power := sum power_values in
      if gt total_power (Fin 10000)
      then do kw <- div total_power (Fin 1000); Ok (round kw 2)
      else Ok (round total_power 2)
  | [] =>
      let temp_sensors :=
        List.length (filter (fun item : string * Sensor.t =>
          contains "temp" (lower (fst item)) || contains "temperature" (lower (fst item)))
          sensors) in
      Ok (round (add (Fin 1) (scale (of_len temp_sensors) 0.05)) 2)
  end.

(** ** [calculate_network_metrics] *)
Definition calculate_network_metrics (network_data : dict string Iface.t)
    : result Metrics.t :=
  match map (fun item : string * Iface.t => Iface.value (snd item)) network_data with
  | [] => Ok Metrics.empty
  | v :: vs =>
      let throughput_values := v :: vs in
      let total_throughput := sum throughput_values in
      do avg_throughput <-
        div total_throughput (of_len (List.length throughput_values));
      let max_throughput := max_of v vs in
      let network_status :=
        if gt max_throughput (Fin 95) then "critical"
        else if gt max_throughput (Fin 85) then "warning"
        else "normal" in
      Ok (Metrics.make (round total_throughput 2) (round avg_throughput 2)
            (round max_throughput 2)
            (Z.of_nat (List.length throughput_values)) network_status)
  end.

(** ** [extract_rack_number] *)
Definition is_sep (c : ascii) : bool := Re.one_of "_-" c || is_space c.

Definition rack_patterns : list Re.regex :=
  let digits := Re.Group (Re.Plus is_digit) in
  let seps := Re.Star is_sep in
  [ Re.Seq (Re.lit "rack") (Re.Seq seps digits);       (* rack[_\s\-]*(\d+)   *)
    Re.Seq (Re.lit "r") digits;                        (* r(\d+)              *)
    Re.Seq (Re.lit "server") (Re.Seq seps digits);     (* server[_\s\-]*(\d+) *)
    Re.Seq (Re.lit "node") (Re.Seq seps digits);       (* node[_\s\-]*(\d+)   *)
    Re.Seq digits (Re.Seq seps (Re.lit "rack"));       (* (\d+)[_\s\-]*rack   *)
    Re.Seq digits (Re.Seq seps (Re.lit "server")) ].   (* (\d+)[_\s\-]*server *)

(** [int(match.group(1))] of the first pattern that is found. *)
Fixpoint first_group (patterns : list Re.regex) (s : string) : option Z :=
  match patterns with
  | [] => None
  | pattern :: rest =>
      match Re.search pattern s with
      | Some (_, Some group1) => Some (digits_val group1)
      | _ => first_group rest s
      end
  end.

Definition extract_rack_number (filename : string) : option Z :=
  let filename_lower := lower filename in
  match first_group rack_patterns filename_lower with
  | Some n => Some n
  | None =>
      (* numbers = re.findall(r'\d+', filename); numbers[0] *)
      match Re.search (Re.Plus is_digit) filename with
      | Some (number, _) => Some (digits_val number)
      | None => None
      end
  end.

(** ** What the loaders read from outside *)

(** A directory as [os.path.exists] and [os.listdir] show it.  A file is
    its name with what [pd.read_csv] makes of it (after the latin-1 retry):
    a frame, or the exception it raises. *)
Inductive folder : Type :=
| Absent
| Unlistable (msg : string)
| Listing (files : list (string * result Frame.t)).

Record env : Type := {
  CSV_FOLDER : folder;
  NETWORK_FOLDER : folder;
  random : nat -> Q;      (* the successive results of random.random() *)
  now : string            (* time.strftime("%Y-%m-%d %H:%M:%S") *)
}.

(** [random.uniform(a, b)]: [a + (b - a) * random()], at position [pos] of
    the generator. *)
Definition uniform (e : env) (a b : Q) (pos : nat) : pyfloat * nat :=
  (of_Q (a + (b - a) * random e pos), S pos).

Definition endswith (suffix s : string) : bool :=
  let n := length s in let m := length suffix in
  (m <=? n)%nat && String.eqb (substring (n - m) m s) suffix.

(** [[f for f in os.listdir(folder) if f.endswith('.csv')]] *)
Definition csv_files (files : list (string * result Frame.t))
    : list (string * result Frame.t) :=
  filter (fun f => endswith ".csv" (fst f)) files.

(** ** [load_network_data] *)

(** An entry of the dictionary [load_network_data] returns. *)
Module NetFile.
Record t : Type := make {
  filename : string;
  data : dict string Iface.t;
  dataframe : Frame.t;
  interface_count : Z;
  metrics : Metrics.t
}.
End NetFile.

Definition name_terms : list string :=
  ["interface"; "port"; "nic"; "network"; "name"].

Definition throughput_terms : list string :=
  ["throughput"; "bandwidth"; "speed"; "rate"; "utilization"; "value";
   "mbps"; "gbps"].

(** The first column whose label has one of [terms] and whose cell is not
    missing: the inner loops break only there. *)
Definition first_present (terms : list string) (row : list (string * cell))
    : option cell :=
  match find (fun c : string * cell =>
                contains_any terms (lower (fst c)) && negb (Py.isna (snd c))) row with
  | Some (_, v) => Some v
  | None => None
  end.

Definition throughput_status (throughput_value : pyfloat) : string :=
  if gt throughput_value (Fin 95) then "critical"
  else if gt throughput_value (Fin 85) then "warning"
  else "ok".

(** One row of a network table, on [(network_data, interface_count)]. *)
Definition network_row (acc : dict string Iface.t * Z) (row : list (string * cell))
    : dict string Iface.t * Z :=
  let (network_data, interface_count) := acc in
  match first_present name_terms row with
  | None => acc
  | Some v =>
      let interface_name := strip (Py.str v) in
      if negb (truthy interface_name) then acc
      else
        let throughput_value :=
          match first_present throughput_terms row with
          | Some t => parse_sensor_value t
          | None => Fin 0
          end in
        let throughput_value :=
          if eqb throughput_value (Fin 0) then
            match find (fun c : string * cell =>
                          negb (String.eqb (fst c) "Interface")
                          && negb (String.eqb (fst c) "Port")
                          && negb (String.eqb (fst c) "Name")
                          && gt (parse_sensor_value (snd c)) (Fin 0)) row with
            | Some (_, t) => parse_sensor_value t
            | None => throughput_value
            end
          else throughput_value in
        if gt throughput_value (Fin 0) then
          (Dict.set network_data interface_name
             (Iface.make throughput_value (throughput_status throughput_value) "Mbps"),
           (interface_count + 1)%Z)
        else acc
  end.

(** The entry made of a drawn throughput. *)
Definition sample_entry (throughput : pyfloat) : Iface.t :=
  Iface.make (round throughput 2)
    (if lt throughput (Fin 85) then "ok"
     else if lt throughput (Fin 95) then "warning" else "critical")
    "Mbps".

(** The sample interfaces [eth1] .. [eth4]; [range(1, 5)] is [[1; 2; 3; 4]]. *)
Definition sample_interface (e : env) (acc : dict string Iface.t * nat) (i : Z)
    : dict string Iface.t * nat :=
  let (network_data, pos) := acc in
  let (throughput, pos') := uniform e 10 80 pos in
  (Dict.set network_data ("eth" ++ Py.str_of_Z i) (sample_entry throughput), pos').

Definition sample_interfaces (e : env) (pos : nat) : dict string Iface.t * nat :=
  fold_left (sample_interface e) [1; 2; 3; 4]%Z ([], pos).

(** The body of the loop over the network files; an exception inside the
    [try] skips the file. *)
Definition load_network_file (e : env) (acc : dict Z NetFile.t * nat)
    (file : string * result Frame.t) : dict Z NetFile.t * nat :=
  let (network_files, pos) := acc in
  let (filename, content) := file in
  match extract_rack_number filename with
  | None => acc
  | Some rack_id =>
      match content with
      | Err _ => acc
      | Ok df =>
          let (network_data, interface_count) :=
            fold_left network_row (Frame.iterrows df) ([], 0%Z) in
          let '(network_data, interface_count, pos') :=
            match network_data with
            | [] => let (sample, pos') := sample_interfaces e pos in (sample, 4%Z, pos')
            | _ :: _ => (network_data, interface_count, pos)
            end in
          match calculate_network_metrics network_data with
          | Err _ => (network_files, pos')
          | Ok metrics =>
              (Dict.set network_files rack_id
                 (NetFile.make filename network_data df interface_count metrics),
               pos')
          end
      end
  end.

Definition load_network_data (e : env) (pos : nat)
    : result (dict Z NetFile.t) * nat :=
  match NETWORK_FOLDER e with
  | Absent => (Ok [], pos)
  | Unlistable msg => (Err msg, pos)
  | Listing files =>
      let (network_files, pos') :=
        fold_left (load_network_file e) (csv_files files) ([], pos) in
      (Ok network_files, pos')
  end.

(** ** The module globals *)

(** An entry of [rack_files]. *)
Module RackFile.
Record t : Type := make {
  filename : string;
  path : string;
  dataframe : Frame.t;
  all_files : list string
}.
End RackFile.

(** An entry of [rack_data]. *)
Module Rack.
Record t : Type := make {
  sensors : dict string Sensor.t;
  status : string;
  temperature : pyfloat;
  power : pyfloat;
  network : Metrics.t;
  sensor_count : Z;
  timestamp : string
}.
End Rack.

(** An entry of [rack_metadata]; the inner [sensor_categories] dictionary
    is given by its five counts. *)
Module Meta.
Record t : Type := make {
  filename : string;
  temperature : Z;
  power : Z;
  network : Z;
  cooling : Z;
  total : Z
}.
End Meta.

(** The globals the loaders write, and the position of the random
    generator.  The Prometheus gauges ([gauges], [seen_metric_names]) only
    feed the metrics endpoint and are left out. *)
Record globals : Type := {
  rack_files : dict Z RackFile.t;
  rack_data : dict Z Rack.t;
  rack_metadata : dict Z Meta.t;
  sensor_categories : dict string (list string);   (* defaultdict(set) *)
  current_state : dict string pyfloat;
  rng : nat
}.

(** Statements that change the globals and may raise: an exception leaves
    the globals as they are at that point. *)
Definition M (A : Type) : Type := globals -> result A * globals.

Definition ret {A} (a : A) : M A := fun g => (Ok a, g).

Definition mbind {A B} (m : M A) (k : A -> M B) : M B :=
  fun g => match m g with
           | (Ok a, g') => k a g'
           | (Err msg, g') => (Err msg, g')
           end.

Notation "x <~ m ;; k" := (mbind m (fun x => k))
  (at level 61, m at next level, right associativity).
Notation "m ;;; k" := (mbind m (fun _ => k))
  (at level 61, right associativity).

Definition lift {A} (r : result A) : M A := fun g => (r, g).
Definition gets {A} (f : globals -> A) : M A := fun g => (Ok (f g), g).
Definition modify (f : globals -> globals) : M unit := fun g => (Ok tt, f g).

Fixpoint for_each {X} (xs : list X) (body : X -> M unit) : M unit :=
  match xs with
  | [] => ret tt
  | x :: xs' => body x ;;; for_each xs' body
  end.

Definition set_rack_files v g :=
  {| rack_files := v; rack_data := rack_data g; rack_metadata := rack_metadata g;
     sensor_categories := sensor_categories g; current_state := current_state g;
     rng := rng g |}.
Definition set_rack_data v g :=
  {| rack_files := rack_files g; rack_data := v; rack_metadata := rack_metadata g;
     sensor_categories := sensor_categories g; current_state := current_state g;
     rng := rng g |}.
Definition set_rack_metadata v g :=
  {| rack_files := rack_files g; rack_data := rack_data g; rack_metadata := v;
     sensor_categories := sensor_categories g; current_state := current_state g;
     rng := rng g |}.
Definition set_sensor_categories v g :=
  {| rack_files := rack_files g; rack_data := rack_data g;
     rack_metadata := rack_metadata g; sensor_categories := v;
     current_state := current_state g; rng := rng g |}.
Definition set_current_state v g :=
  {| rack_files := rack_files g; rack_data := rack_data g;
     rack_metadata := rack_metadata g; sensor_categories := sensor_categories g;
     current_state := v; rng := rng g |}.
Definition set_rng v g :=
  {| rack_files := rack_files g; rack_data := rack_data g;
     rack_metadata := rack_metadata g; sensor_categories := sensor_categories g;
     current_state := current_state g; rng := v |}.

(** ** [update_rack_data] *)

(** The first column, in column order, whose label passes [test]: the
    [for col in df.columns: if test: ...; break] loops. *)
Definition first_column (test : string -> bool) (row : list (string * cell))
    : option cell :=
  match find (fun c : string * cell => test (fst c)) row with
  | Some (_, v) => Some v
  | None => None
  end.

(** The value of a row: the first column labelled as a value or reading,
    else the first column not named [Sensor], [Status] or [Units], else 0. *)
Definition row_value (row : list (string * cell)) : pyfloat :=
  match first_column (fun col => contains "value" (lower col)
                                 || contains "reading" (lower col)) row with
  | Some v => parse_sensor_value v
  | None =>
      match first_column (fun col => negb (String.eqb col "Sensor")
                                     && negb (String.eqb col "Status")
                                     && negb (String.eqb col "Units")) row with
      | Some v => parse_sensor_value v
      | None => Fin 0
      end
  end.

(** The status of a row: the text of the first status column when it is
    present, else inferred from the name and the value. *)
Definition row_status (sensor_name : string) (sensor_value : pyfloat)
    (row : list (string * cell)) : string :=
  let from_value :=
    if contains "temp" (lower sensor_name) then
      if gt sensor_value (Fin 85) then "critical"
      else if gt sensor_value (Fin 75) then "warning"
      else "ok"
    else "ok" in
  match first_column (fun col => contains "status" (lower col)) row with
  | Some raw_status =>
      if negb (Py.isna raw_status) then strip (Py.str raw_status) else from_value
  | None => from_value
  end.

Definition row_units (row : list (string * cell)) : string :=
  match first_column (fun col => contains "unit" (lower col)) row with
  | Some raw_units =>
      if negb (Py.isna raw_units) then strip (Py.str raw_units) else ""
  | None => ""
  end.

(** One row of a sensor table: the name and the entry it yields, or
    nothing when the row is skipped. *)
Definition sensor_row (row : list (string * cell)) : option (string * Sensor.t) :=
  match first_column (fun col => contains "sensor" (lower col)
                                 || contains "name" (lower col)) row with
  | None => None
  | Some v =>
      let sensor_name := strip (Py.str v) in
      if negb (truthy sensor_name) then None
      else
        let sensor_value := row_value row in
        Some (sensor_name,
              Sensor.make sensor_value (row_status sensor_name sensor_value row)
                (row_units row) "sensor" None)
  end.

(** The loop over the rows, on [(sensors_dict, sensor_count, current_state)]. *)
Definition read_row (acc : dict string Sensor.t * Z * dict string pyfloat)
    (row : list (string * cell)) : dict string Sensor.t * Z * dict string pyfloat :=
  let '(sensors_dict, sensor_count, state) := acc in
  match sensor_row row with
  | None => acc
  | Some (sensor_name, entry) =>
      (Dict.set sensors_dict sensor_name entry, (sensor_count + 1)%Z,
       Dict.set state sensor_name (Sensor.value entry))
  end.

(** The loop over a network file's interfaces, on
    [(sensors_dict, sensor_count)]. *)
Definition add_interface (acc : dict string Sensor.t * Z) (item : string * Iface.t)
    : dict string Sensor.t * Z :=
  let (sensors_dict, sensor_count) := acc in
  let (interface, net_data) := item in
  (Dict.set sensors_dict ("Network_" ++ interface)
     (Sensor.make (Iface.value net_data) (Iface.status net_data)
        (Iface.units net_data) "network" (Some interface)),
   (sensor_count + 1)%Z).

(** [sensor_categories[category].add(sensor_name)] *)
Definition add_to_category (cats : dict string (list string))
    (category sensor_name : string) : dict string (list string) :=
  let members := match Dict.get cats category with Some l => l | None => [] end in
  Dict.set cats category
    (if existsb (String.eqb sensor_name) members then members
     else (members ++ [sensor_name])%list).

(** The category of a sensor, in the order the chain of tests gives. *)
Definition category_of (sensor_name : string) (sensor_data : Sensor.t) : string :=
  let sensor_lower := lower sensor_name in
  if contains_any ["temp"; "temperature"; "thermal"] sensor_lower
     && negb (contains "volt" sensor_lower) then "temperature"
  else if contains_any ["power"; "watt"; "volt"; "current"; "vrm"; "vbat";
                        "vcc"; "vcpu"; "vdimm"] sensor_lower then "power"
  else if contains_any ["cpu"; "processor"; "core"] sensor_lower then "cpu"
  else if contains_any ["memory"; "ram"; "swap"; "dimm"] sensor_lower then "memory"
  else if contains_any ["fan"; "rpm"; "cooling"; "airflow"] sensor_lower then "cooling"
  else if String.eqb (Sensor.type sensor_data) "network"
          || contains_any ["network"; "interface"; "port"; "nic"; "throughput";
                           "bandwidth"] sensor_lower then "network"
  else if contains_any ["disk"; "storage"; "io"; "read"; "write"; "hdd"; "sas"]
            sensor_lower then "disk"
  else if contains_any ["humidity"; "moisture"] sensor_lower then "environment"
  else "other".

Definition count_of (category : string) (sensors_dict : dict string Sensor.t) : Z :=
  Z.of_nat (List.length
    (filter (fun item : string * Sensor.t =>
               String.eqb (category_of (fst item) (snd item)) category)
            sensors_dict)).

(** The sensors of one rack: the rows of its table, then the interfaces
    of its network file when there is one.  The answer is
    [(sensors_dict, sensor_count, network_metrics, current_state)]. *)
Definition rack_sensors (network_data : dict Z NetFile.t) (rack_id : Z)
    (df : Frame.t) (state : dict string pyfloat)
    : dict string Sensor.t * Z * Metrics.t * dict string pyfloat :=
  let '(sensors_dict, sensor_count, state') :=
    fold_left read_row (Frame.iterrows df) ([], 0%Z, state) in
  match Dict.get network_data rack_id with
  | Some net_info =>
      let (sensors_dict, sensor_count) :=
        fold_left add_interface (NetFile.data net_info) (sensors_dict, sensor_count) in
      (sensors_dict, sensor_count, NetFile.metrics net_info, state')
  | None => (sensors_dict, sensor_count, Metrics.empty, state')
  end.

(** The body of the loop over [rack_files.items()]. *)
Definition update_rack (e : env) (network_data : dict Z NetFile.t)
    (item : Z * RackFile.t) : M unit :=
  let (rack_id, rack_info) := item in
  let df := RackFile.dataframe rack_info in
  state <~ gets current_state ;;
  let '(sensors_dict, sensor_count, network_metrics, state') :=
    rack_sensors network_data rack_id df state in
  modify (set_current_state state') ;;;
  match sensors_dict with
  | [] => ret tt
  | _ :: _ =>
      status <~ lift (calculate_rack_status sensors_dict) ;;
      temperature <~ lift (calculate_rack_temperature sensors_dict) ;;
      power <~ lift (calculate_rack_power sensors_dict) ;;
      modify (fun g => set_rack_data
        (Dict.set (rack_data g) rack_id
           (Rack.make sensors_dict status temperature power network_metrics
              sensor_count (now e))) g) ;;;
      modify (fun g => set_sensor_categories
        (fold_left (fun cats (s : string * Sensor.t) =>
                      add_to_category cats (category_of (fst s) (snd s)) (fst s))
           sensors_dict (sensor_categories g)) g) ;;;
      modify (fun g => set_rack_metadata
        (Dict.set (rack_metadata g) rack_id
           (Meta.make (RackFile.filename rack_info)
              (count_of "temperature" sensors_dict) (count_of "power" sensors_dict)
              (count_of "network" sensors_dict) (count_of "cooling" sensors_dict)
              sensor_count)) g)
  end.

Definition update_rack_data (e : env) : M unit :=
  network_data <~ (fun g =>
     let (r, pos) := load_network_data e (rng g) in (r, set_rng pos g)) ;;
  files <~ gets rack_files ;;
  for_each files (update_rack e network_data).

(** ** [create_sample_racks] *)
Definition sample_sensors : list string :=
  ["CPU1 Temp"; "CPU2 Temp"; "System Temp"; "FAN1"; "FAN2"; "12V"; "5VCC";
   "3.3VCC"; "P1-DIMMA1 Temp"; "Vcpu1"].

(** The loop over [sample_sensors], on [sensors_dict] and the generator. *)
Definition sample_sensor (e : env) (acc : dict string Sensor.t * nat)
    (sensor : string) : dict string Sensor.t * nat :=
  let (sensors_dict, pos) := acc in
  let '(value, status, units, pos) :=
    if contains "Temp" sensor then
      let (u, pos) := uniform e (-5) 10 pos in
      let base_temp := add (Fin 40) u in
      if contains "CPU" sensor then
        let (u, pos) := uniform e 5 20 pos in
        let value := add base_temp u in
        (value,
         if lt value (Fin 70) then "ok"
         else if lt value (Fin 80) then "warning" else "critical",
         "degrees C", pos)
      else
        let (u, pos) := uniform e (-5) 5 pos in
        (add base_temp u, "ok", "degrees C", pos)
    else if contains "FAN" sensor then
      let (value, pos) := uniform e 1000 3000 pos in (value, "ok", "RPM", pos)
    else if contains "V" sensor then
      let (value, pos) :=
        if contains "12V" sensor then uniform e 11.9 12.1 pos
        else if contains "5V" sensor then uniform e 4.95 5.05 pos
        else if contains "3.3V" sensor then uniform e 3.28 3.32 pos
        else uniform e 1.0 1.5 pos in
      (value, "ok", "Volts", pos)
    else
      let (value, pos) := uniform e 20 40 pos in (value, "ok", "degrees C", pos) in
  (Dict.set sensors_dict sensor (Sensor.make (round value 3) status units "sensor" None),
   pos).

(** The dummy frame with columns [Sensor], [Value], [Units], [Status]. *)
Definition sample_frame (sensors_dict : dict string Sensor.t) : Frame.t :=
  Frame.make ["Sensor"; "Value"; "Units"; "Status"]
    (map (fun item : string * Sensor.t =>
            [CStr (fst item); CFloat (Sensor.value (snd item));
             CStr (Sensor.units (snd item)); CStr (Sensor.status (snd item))])
         sensors_dict).

(** The body of the loop over [range(1, 6)].  The interfaces drawn for
    [network_data] are a local of the loop that is stored nowhere; only the
    generator keeps a trace of them. *)
Definition sample_rack (e : env) (rack_id : Z) : M unit :=
  pos <~ gets rng ;;
  let (sensors_dict, pos) := fold_left (sample_sensor e) sample_sensors ([], pos) in
  let (network_data, pos) := sample_interfaces e pos in
  let df := sample_frame sensors_dict in
  modify (set_rng pos) ;;;
  modify (fun g => set_rack_files
    (Dict.set (rack_files g) rack_id
       (RackFile.make ("sample_rack_" ++ Py.str_of_Z rack_id ++ ".csv")
          ("sample/path/rack_" ++ Py.str_of_Z rack_id ++ ".csv") df
          ["sample_rack_" ++ Py.str_of_Z rack_id ++ ".csv"])) g).

Definition create_sample_racks (e : env) : M unit :=
  for_each [1; 2; 3; 4; 5]%Z (sample_rack e) ;;;
  update_rack_data e.

(** ** [load_rack_data] *)

(** [pd.read_csv(os.path.join(CSV_FOLDER, filename))] *)
Definition read_csv (files : list (string * result Frame.t)) (filename : string)
    : result Frame.t :=
  match find (fun f => String.eqb (fst f) filename) files with
  | Some (_, content) => content
  | None => Err "FileNotFoundError"
  end.

(** First pass: the file names of each rack number; a number that is
    [None] or [0] fails [if rack_id]. *)
Definition assign_rack (rack_numbers : dict Z (list string))
    (file : string * result Frame.t) : dict Z (list string) :=
  let filename := fst file in
  match extract_rack_number filename with
  | Some rack_id =>
      if (rack_id =? 0)%Z then rack_numbers
      else
        let filenames :=
          match Dict.get rack_numbers rack_id with Some l => l | None => [] end in
        Dict.set rack_numbers rack_id (filenames ++ [filename])%list
  | None => rack_numbers
  end.

(** Second pass: the first file of each rack; a file that cannot be read
    is skipped. *)
Definition load_rack_file (files : list (string * result Frame.t))
    (item : Z * list string) : M unit :=
  let (rack_id, filenames) := item in
  match filenames with
  | [] => lift (Err "IndexError")
  | filename :: _ =>
      match read_csv files filename with
      | Ok df =>
          modify (fun g => set_rack_files
            (Dict.set (rack_files g) rack_id
               (RackFile.make filename ("../../Data/Sensor_data/" ++ filename)
                  df filenames)) g)
      | Err _ => ret tt
      end
  end.

Definition load_rack_data (e : env) : M unit :=
  modify (set_rack_files []) ;;;
  modify (set_rack_data []) ;;;
  modify (set_rack_metadata []) ;;;
  modify (set_sensor_categories []) ;;;
  match CSV_FOLDER e with
  | Absent => create_sample_racks e
  | Unlistable msg => lift (Err msg)
  | Listing files =>
      match csv_files files with
      | [] => create_sample_racks e
      | csvs =>
          let rack_numbers := fold_left assign_rack csvs [] in
          for_each rack_numbers (load_rack_file files) ;;;
          update_rack_data e
      end
  end.

(** ** [reload_data], the handler of [POST /api/reload] *)
Inductive response : Type :=
| Success (racks : list Z) (sensors : Z)    (* 200, "status": "success" *)
| Failure (message : string).               (* 500, "status": "error"   *)

(** [sorted(d.keys())] for integer keys *)
Fixpoint insert_key (k : Z) (l : list Z) : list Z :=
  match l with
  | [] => [k]
  | k' :: l' => if (k <? k')%Z then k :: l else k' :: insert_key k l'
  end.

Definition sorted_keys (ks : list Z) : list Z :=
  fold_left (fun acc k => insert_key k acc) ks [].

Definition reload_data (e : env) (g : globals) : response * globals :=
  match load_rack_data e g with
  | (Ok _, g') =>
      (Success (sorted_keys (Dict.keys (rack_files g')))
         (Dict.size (current_state g')), g')
  | (Err message, g') => (Failure message, g')
  end.

End App.


(* ================================================================== *)
(** * The quantities the specification names *)

Module Spec.
Import Text Float App.

(** The three effective statuses of a sensor. *)
Inductive level : Type := Critical | Warning | Normal.

Definition level_eqb (a b : level) : bool :=
  match a, b with
  | Critical, Critical | Warning, Warning | Normal, Normal => true
  | _, _ => false
  end.

(** A name with one of the temperature keywords [temp], [temperature],
    [thermal], whatever the case of its letters. *)
Definition has_temperature_keyword (sensor_name : string) : bool :=
  contains_any ["temp"; "temperature"; "thermal"] (lower sensor_name).

(** The status text is none of the known ones. *)
Definition unrecognized (status : string) : bool :=
  negb (contains "critical" status || contains "non-recoverable" status
        || contains "non-critical" status || contains "warning" status
        || contains "ok" status || contains "normal" status).

(** The effective status of a sensor, as the specification classifies it.
    A status text that holds 'non-critical' is a warning; else one that
    holds 'critical' or 'non-recoverable' is critical; else one that holds
    'warning' is a warning; else one that holds 'ok' or 'normal' is normal.
    A sensor with any other text goes by its name and value: with a
    temperature keyword in its name it is critical above 85, a warning
    above 75 and normal otherwise; any other sensor is normal. *)
Definition effective_status (sensor_name : string) (sensor_data : Sensor.t) : level :=
  let status := lower (Sensor.status sensor_data) in
  if contains "non-critical" status then Warning
  else if contains "critical" status || contains "non-recoverable" status then Critical
  else if contains "warning" status then Warning
  else if contains "ok" status || contains "normal" status then Normal
  else if has_temperature_keyword sensor_name then
    if gt (Sensor.value sensor_data) (Fin 85) then Critical
    else if gt (Sensor.value sensor_data) (Fin 75) then Warning
    else Normal
  else Normal.

(** The number of the sensors that pass [p]. *)
Definition count (p : string * Sensor.t -> bool) (sensors : dict string Sensor.t) : Z :=
  Z.of_nat (List.length (filter p sensors)).

Definition has_level (l : level) (item : string * Sensor.t) : bool :=
  level_eqb (effective_status (fst item) (snd item)) l.

(** The numbers of critical and of warning sensors, and of all sensors. *)
Definition critical_count (sensors : dict string Sensor.t) : Z :=
  count (has_level Critical) sensors.
Definition warning_count (sensors : dict string Sensor.t) : Z :=
  count (has_level Warning) sensors.
Definition total_sensors (sensors : dict string Sensor.t) : Z :=
  Z.of_nat (List.length sensors).

(** The sensors on which [calculate_rack_status] parts with this
    classification.  It reads a status text with 'non-critical' as
    critical; and it applies the thresholds 85 and 75 to the names with
    'temp' only, so that a sensor named after 'thermal' alone whose status
    text it does not know is normal to it whatever its value. *)
Definition misread (item : string * Sensor.t) : bool :=
  contains "non-critical" (lower (Sensor.status (snd item))).

Definition overlooked (item : string * Sensor.t) : bool :=
  unrecognized (lower (Sensor.status (snd item)))
  && has_temperature_keyword (fst item)
  && negb (contains "temp" (lower (fst item))).

Definition overlooked_hot (item : string * Sensor.t) : bool :=
  overlooked item && gt (Sensor.value (snd item)) (Fin 85).

Definition overlooked_warm (item : string * Sensor.t) : bool :=
  overlooked item && negb (gt (Sensor.value (snd item)) (Fin 85))
  && gt (Sensor.value (snd item)) (Fin 75).

(** [count / total] as a rational. *)
Definition share (count total : Z) : Q := inject_Z count / inject_Z total.

(** A temperature sensor of the rack temperature: a name with a
    temperature keyword and without 'volt'. *)
Definition is_temperature_name (sensor_name : string) : bool :=
  has_temperature_keyword sensor_name && negb (contains "volt" (lower sensor_name)).

(** A value strictly between -10 and 120. *)
Definition plausible (v : pyfloat) : bool := lt (Fin (-10)) v && lt v (Fin 120).

(** The temperature samples of a rack, in the order of its sensors. *)
Definition temperature_samples (sensors : dict string Sensor.t) : list pyfloat :=
  map (fun item : string * Sensor.t => Sensor.value (snd item))
    (filter (fun item : string * Sensor.t =>
               is_temperature_name (fst item) && plausible (Sensor.value (snd item)))
            sensors).

(** The mean of a list: its sum over its length. *)
Definition mean (xs : list pyfloat) : result pyfloat :=
  div (sum xs) (of_len (List.length xs)).

(** A label that claims the value role. *)
Definition is_value_label (col : string) : bool :=
  contains "value" (lower col) || contains "reading" (lower col).

(** A label that claims the name role. *)
Definition is_name_label (col : string) : bool :=
  contains "sensor" (lower col) || contains "name" (lower col).

(** The interfaces the rows of a network table yield. *)
Definition parsed_interfaces (df : Frame.t) : dict string Iface.t :=
  fst (fold_left network_row (Frame.iterrows df) ([], 0%Z)).

(** The rational [q] lies in the closed interval from [lo] to [hi]. *)
Definition within (lo hi : Q) (x : pyfloat) : Prop :=
  exists q, x = Fin q /\ (lo <= q <= hi)%Q.

(** A placeholder interface: its value is a draw from [10, 80) rounded to
    two decimals, hence between 10 and 80; its status is 'ok', as the
    thresholds on the value give it; its unit is Mbps. *)
Definition placeholder (i : Iface.t) : Prop :=
  (exists u, (10 <= u < 80)%Q /\ Iface.value i = round (Fin u) 2)
  /\ within 10 80 (Iface.value i)
  /\ Iface.status i = "ok"
  /\ Iface.status i = throughput_status (Iface.value i)
  /\ Iface.units i = "Mbps".

(** A run of decimal digits, possibly empty. *)
Definition digits (w : string) : Prop := all_chars is_digit w = true.





(** A folder in which no CSV file can be found: it does not exist, or it
    lists none. *)
Definition no_csv (f : folder) : Prop :=
  f = Absent \/ exists files, f = Listing files /\ csv_files files = [].

(** An entry of [sensors] that came from a row of a sensor table, not from
    a network interface. *)
Definition from_table (s : Sensor.t) : Prop :=
  Sensor.type s = "sensor" /\ Sensor.interface s = None.

(** A sample rack as the load enters it: the ten sample sensors under
    their names, counted ten, none of them a network interface, and the
    all-zero network summary (no interface at all). *)
Definition sample_rack_entered (rack : Rack.t) : Prop :=
  Dict.keys (Rack.sensors rack) = sample_sensors
  /\ Rack.sensor_count rack = 10%Z
  /\ Forall from_table (Dict.values (Rack.sensors rack))
  /\ Rack.network rack = Metrics.empty.

(** No element is greater than its successor. *)
Definition ascending (xs : list pyfloat) : Prop :=
  Sorted (fun a b => lt b a = false) xs.

End Spec.




(* ================================================================== *)
(** * Sample surroundings for the worked examples *)

Module Sample.
Import App.

(** Globals before the first load. *)
Definition empty : globals :=
  {| rack_files := []; rack_data := []; rack_metadata := [];
     sensor_categories := []; current_state := []; rng := 0 |}.

(** Neither data folder exists; the generator always answers 0.5. *)
Definition no_files : env :=
  {| CSV_FOLDER := Absent; NETWORK_FOLDER := Absent;
     random := fun _ => 1 # 2; now := "2024-01-01 00:00:00" |}.

(** A network folder with one table, for rack 1, whose only row reports
    no throughput; [draw] is what [random.random()] answers each time. *)
Definition idle_table : Frame.t :=
  Frame.make ["Interface"; "Throughput"] [[CStr "eth0"; CInt 0]].

Definition idle_network (draw : Q) : env :=
  {| CSV_FOLDER := Absent;
     NETWORK_FOLDER := Listing [("rack1_network.csv", Ok idle_table)];
     random := fun _ => draw; now := "2024-01-01 00:00:00" |}.

(** The sensor folder exists but cannot be listed. *)
Definition unlistable : env :=
  {| CSV_FOLDER := Unlistable "PermissionError"; NETWORK_FOLDER := Absent;
     random := fun _ => 1 # 2; now := "2024-01-01 00:00:30" |}.

(** The globals after a first load that found no folder: the five sample
    racks. *)
Definition published : globals := snd (load_rack_data no_files empty).

(** A sensor folder with two tables for rack 1, the first of which cannot
    be parsed, a table whose name gives the number 0, and a text file. *)
Definition listing : list (string * result Frame.t) :=
  [("rack1_a.csv", Err "ParserError");
   ("rack1_b.csv", Ok (Frame.make ["Sensor"; "Value"] [[CStr "CPU1 Temp"; CInt 40]]));
   ("rack0.csv", Ok (Frame.make ["Sensor"; "Value"] [[CStr "CPU1 Temp"; CInt 40]]));
   ("notes.txt", Err "ParserError")].

Definition two_files : env :=
  {| CSV_FOLDER := Listing listing; NETWORK_FOLDER := Absent;
     random := fun _ => 1 # 2; now := "2024-01-01 00:01:00" |}.

(** A registry with one rack whose sensors are named after three numbered
    CPUs, none of them a temperature. *)
Definition cpu_rack : Rack.t :=
  Rack.make
    [("CPU1", Sensor.make (Fin 10) "ok" "" "sensor" None);
     ("CPU2", Sensor.make (Fin 20) "ok" "" "sensor" None);
     ("CPU3", Sensor.make (Fin 30) "ok" "" "sensor" None)]
    "normal" (Fin 40) (Fin 1) Metrics.empty 3 "2024-01-01 00:00:00".

Definition three_cpus : globals :=
  {| rack_files := []; rack_data := [(1%Z, cpu_rack)]; rack_metadata := [];
     sensor_categories := []; current_state := []; rng := 0 |}.

End Sample.


(* ================================================================== *)
(** * Further quantities, for the properties beyond the specification *)

Module Extra.
Import Text Float App.

(** An interface as a row of a network table enters it: a throughput
    above zero, the status the thresholds give it, the unit Mbps. *)
Definition parsed_entry (i : Iface.t) : Prop :=
  gt (Iface.value i) (Fin 0) = true
  /\ Iface.status i = throughput_status (Iface.value i)
  /\ Iface.units i = "Mbps".


(** A rack of the registry whose roll-ups are those of its sensors. *)
Definition rolled_up (e : env) (rack : Rack.t) : Prop :=
  Rack.sensors rack <> []
  /\ calculate_rack_status (Rack.sensors rack) = Ok (Rack.status rack)
  /\ calculate_rack_temperature (Rack.sensors rack) = Ok (Rack.temperature rack)
  /\ calculate_rack_power (Rack.sensors rack) = Ok (Rack.power rack)
  /\ Rack.timestamp rack = now e.

(** A network file as the loader enters it: at least one interface, a
    count that is not behind, and the summary of exactly these
    interfaces. *)
Definition entered (f : NetFile.t) : Prop :=
  NetFile.data f <> []
  /\ (Dict.size (NetFile.data f) <= NetFile.interface_count f)%Z
  /\ calculate_network_metrics (NetFile.data f) = Ok (NetFile.metrics f).

(** An interface whose status is the one its value earns, the value being
    a number. *)
Definition graded (i : Iface.t) : Prop :=
  is_nan (Iface.value i) = false
  /\ Iface.status i = throughput_status (Iface.value i).

(** The names of [current_state g] are names of [current_state g']. *)
Definition keeps_names (g g' : globals) : Prop :=
  forall name, Dict.mem (current_state g) name = true ->
               Dict.mem (current_state g') name = true.

(** The registry is consistent: every rack of the rack table carries the
    roll-ups of its sensors and has its metadata and its file. *)
Definition consistent (e : env) (g : globals) : Prop :=
  Forall (rolled_up e) (Dict.values (rack_data g))
  /\ forall rack_id, Dict.mem (rack_data g) rack_id = true ->
       Dict.mem (rack_metadata g) rack_id = true
       /\ Dict.mem (rack_files g) rack_id = true.

(** The file name is given the rack number [rack_id]. *)
Definition numbered (rack_id : Z) (filename : string) : bool :=
  match extract_rack_number filename with
  | Some n => (n =? rack_id)%Z
  | None => false
  end.

(** The CSV files of a listing that are given the number [rack_id], in
    the order of the listing. *)
Definition files_of (files : list (string * result Frame.t)) (rack_id : Z)
    : list string :=
  filter (numbered rack_id) (map fst (csv_files files)).

(** The entry of [rack_files] that the files of a listing earn the number
    [rack_id]: that of the first of its files, if it can be read. *)
Definition rack_file_of (files : list (string * result Frame.t)) (rack_id : Z)
    : option RackFile.t :=
  match files_of files rack_id with
  | [] => None
  | filename :: rest =>
      if (rack_id =? 0)%Z then None
      else
        match read_csv files filename with
        | Ok df =>
            Some (RackFile.make filename ("../../Data/Sensor_data/" ++ filename)
                    df (filename :: rest))
        | Err _ => None
        end
  end.

(** The entry the second pass of [load_rack_data] makes for a number and
    its files. *)
Definition entry_of (files : list (string * result Frame.t)) (filenames : list string)
    : option RackFile.t :=
  match filenames with
  | [] => None
  | filename :: _ =>
      match read_csv files filename with
      | Ok df =>
          Some (RackFile.make filename ("../../Data/Sensor_data/" ++ filename)
                  df filenames)
      | Err _ => None
      end
  end.



End Extra.

(* ================================================================== *)
(** * The endpoints that read the registry *)

Module Api.
Import Text Float App.

(** ** Python built-ins the endpoints use *)

(** [min(a, b)] and [max(a, b)]: the second argument is the answer only
    when it compares strictly below, or above, the first. *)
Definition min2 (a b : pyfloat) : pyfloat := if lt b a then b else a.
Definition max2 (a b : pyfloat) : pyfloat := if gt b a then b else a.

(** [a - b] *)
Definition sub (a b : pyfloat) : pyfloat := add a (neg b).

(** [a * b] *)
Definition mul (a b : pyfloat) : pyfloat :=
  match a, b with
  | NaN, _ | _, NaN => NaN
  | Fin x, Fin y => of_Q (x * y)
  | Fin x, inf | inf, Fin x => if Qeq_bool x 0 then NaN else sign_of x inf
  | PInf, PInf | NInf, NInf => PInf
  | _, _ => NInf
  end.

(** [l[i]], with the negative positions counted from the end *)
Definition index {A} (l : list A) (i : Z) : result A :=
  let n := Z.of_nat (List.length l) in
  let j := if (i <? 0)%Z then (i + n)%Z else i in
  if (j <? 0)%Z then Err "IndexError"
  else match nth_error l (Z.to_nat j) with
       | Some x => Ok x
       | None => Err "IndexError"
       end.

(** [range(1, n + 1)] *)
Definition range_from_1 (n : nat) : list Z := map Z.of_nat (seq 1 n).

(** ** [make_valid_prometheus_name] *)

Definition is_lower (c : ascii) : bool :=
  let n := nat_of_ascii c in (97 <=? n)%nat && (n <=? 122)%nat.

(** [re.sub(r'[class]+', '_', s)]: every maximal run of the class becomes
    one underscore; [in_run] tells that the character before was of the
    class. *)
Fixpoint sub_runs (p : ascii -> bool) (in_run : bool) (s : string) : string :=
  match s with
  | EmptyString => EmptyString
  | String c s' =>
      if p c then
        if in_run then sub_runs p true s' else String "_" (sub_runs p true s')
      else String c (sub_runs p false s')
  end.

(** [s.strip('_')] *)
Fixpoint lstrip_underscores (s : string) : string :=
  match s with
  | EmptyString => EmptyString
  | String c s' => if Ascii.eqb c "_" then lstrip_underscores s' else s
  end.

Fixpoint rstrip_underscores (s : string) : string :=
  match s with
  | EmptyString => EmptyString
  | String c s' =>
      match rstrip_underscores s' with
      | EmptyString => if Ascii.eqb c "_" then EmptyString else String c EmptyString
      | r => String c r
      end
  end.

Definition strip_underscores (s : string) : string :=
  rstrip_underscores (lstrip_underscores s).

Definition make_valid_prometheus_name (sensor_name : string) : string :=
  let name := strip sensor_name in
  let name :=
    sub_runs (fun c => negb (is_lower c || is_upper c || is_digit c)) false name in
  let name :=
    match name with
    | String c _ => if is_digit c then String "_" name else name
    | EmptyString => name
    end in
  let name := strip_underscores (sub_runs (fun c => Ascii.eqb c "_") false name) in
  let name := lower name in
  if truthy name then "sensor_" ++ name else "sensor_unknown".

(** ** [get_datacenter_status], the handler of [GET /api/datacenter/status] *)

(** An entry of the [racks] dictionary of the answer. *)
Module RackLine.
Record t : Type := make {
  rack_id : Z;
  status : string;
  temperature : pyfloat;
  power : pyfloat;
  network : Metrics.t;
  sensor_count : Z;
  filename : string
}.
End RackLine.

(** The locals of the loop over the racks. *)
Module Tally.
Record t : Type := make {
  racks_status : dict string RackLine.t;
  critical_count : Z;
  warning_count : Z;
  normal_count : Z;
  total_temperature : pyfloat;
  total_power : pyfloat;
  total_network_throughput : pyfloat;
  rack_count : Z
}.
End Tally.

Module Datacenter.
Record t : Type := make {
  timestamp : string;
  overall_status : string;
  rack_count : Z;
  critical_racks : Z;
  warning_racks : Z;
  normal_racks : Z;
  average_temperature : pyfloat;
  average_power : pyfloat;
  total_network_throughput : pyfloat;
  average_network_throughput : pyfloat;
  total_sensors : Z;
  racks : dict string RackLine.t
}.
End Datacenter.

(** One turn of the loop over [sorted(rack_data.keys())].  An entry of
    [rack_data] has all its keys, so that the defaults of [.get] on it are
    never taken. *)
Definition tally_rack (g : globals) (acc : result Tally.t) (rack_id : Z)
    : result Tally.t :=
  do t <- acc;
  match Dict.get (rack_data g) rack_id with
  | None => Err "KeyError"
  | Some rack_info =>
      let line :=
        RackLine.make rack_id (Rack.status rack_info) (Rack.temperature rack_info)
          (Rack.power rack_info) (Rack.network rack_info)
          (Rack.sensor_count rack_info)
          match Dict.get (rack_metadata g) rack_id with
          | Some meta => Meta.filename meta
          | None => "unknown"
          end in
      let is_critical := String.eqb (Rack.status rack_info) "critical" in
      let is_warning := String.eqb (Rack.status rack_info) "warning" in
      Ok (Tally.make
            (Dict.set (Tally.racks_status t) ("rack_" ++ Py.str_of_Z rack_id) line)
            (if is_critical then Tally.critical_count t + 1
             else Tally.critical_count t)%Z
            (if is_critical then Tally.warning_count t
             else if is_warning then Tally.warning_count t + 1
             else Tally.warning_count t)%Z
            (if is_critical then Tally.normal_count t
             else if is_warning then Tally.normal_count t
             else Tally.normal_count t + 1)%Z
            (add (Tally.total_temperature t) (Rack.temperature rack_info))
            (add (Tally.total_power t) (Rack.power rack_info))
            (add (Tally.total_network_throughput t)
                 (Metrics.total_throughput (Rack.network rack_info)))
            (Tally.rack_count t + 1)%Z)
  end.

(** [total / rack_count if rack_count > 0 else 0] *)
Definition average (total : pyfloat) (rack_count : Z) : result pyfloat :=
  if (0 <? rack_count)%Z then div total (Fin (inject_Z rack_count)) else Ok (Fin 0).

Definition get_datacenter_status (e : env) (g : globals) : result Datacenter.t :=
  do t <- fold_left (tally_rack g) (sorted_keys (Dict.keys (rack_data g)))
            (Ok (Tally.make [] 0 0 0 (Fin 0) (Fin 0) (Fin 0) 0));
  let rack_count := Tally.rack_count t in
  do avg_temperature <- average (Tally.total_temperature t) rack_count;
  do avg_power <- average (Tally.total_power t) rack_count;
  do avg_network_throughput <-
    average (Tally.total_network_throughput t) rack_count;
  do critical <- share_exceeds (Tally.critical_count t) rack_count 0.2;
  do overall_status <-
    (if critical then Ok "critical"
     else
       do warning <- share_exceeds (Tally.warning_count t) rack_count 0.3;
       if warning then Ok "warning" else Ok "normal");
  Ok (Datacenter.make (now e) overall_status rack_count
        (Tally.critical_count t) (Tally.warning_count t) (Tally.normal_count t)
        (round avg_temperature 1) (round avg_power 1)
        (round (Tally.total_network_throughput t) 2)
        (round avg_network_throughput 2)
        (Dict.size (current_state g)) (Tally.racks_status t)).

(** ** [get_network_summary], the handler of [GET /api/network/summary] *)

(** An entry of the [racks] list of the answer: the rack's network
    dictionary with its [rack_id]. *)
Module NetLine.
Record t : Type := make {
  rack_id : Z;
  metrics : Metrics.t
}.
End NetLine.

(** The locals of the loop over the racks. *)
Module NetTally.
Record t : Type := make {
  all_network_data : list NetLine.t;
  total_throughput : pyfloat;
  total_interfaces : Z;
  network_critical : Z;
  network_warning : Z;
  network_normal : Z
}.
End NetTally.

Module NetSummary.
Record t : Type := make {
  timestamp : string;
  overall_status : string;
  total_racks_with_network : Z;
  total_interfaces : Z;
  total_throughput : pyfloat;
  critical : Z;
  warning : Z;
  normal : Z;
  racks : list NetLine.t
}.
End NetSummary.

Definition tally_network (g : globals) (acc : result NetTally.t) (rack_id : Z)
    : result NetTally.t :=
  do t <- acc;
  match Dict.get (rack_data g) rack_id with
  | None => Err "KeyError"
  | Some rack_info =>
      let network_info := Rack.network rack_info in
      if (0 <? Metrics.interface_count network_info)%Z then
        let is_critical := String.eqb (Metrics.status network_info) "critical" in
        let is_warning := String.eqb (Metrics.status network_info) "warning" in
        Ok (NetTally.make
              (NetTally.all_network_data t ++ [NetLine.make rack_id network_info])%list
              (add (NetTally.total_throughput t) (Metrics.total_throughput network_info))
              (NetTally.total_interfaces t + Metrics.interface_count network_info)%Z
              (if is_critical then NetTally.network_critical t + 1
               else NetTally.network_critical t)%Z
              (if is_critical then NetTally.network_warning t
               else if is_warning then NetTally.network_warning t + 1
               else NetTally.network_warning t)%Z
              (if is_critical then NetTally.network_normal t
               else if is_warning then NetTally.network_normal t
               else NetTally.network_normal t + 1)%Z)
      else Ok t
  end.

Definition get_network_summary (e : env) (g : globals) : result NetSummary.t :=
  do t <- fold_left (tally_network g) (sorted_keys (Dict.keys (rack_data g)))
            (Ok (NetTally.make [] (Fin 0) 0 0 0 0));
  let overall_network_status :=
    if (0 <? NetTally.network_critical t)%Z then "critical"
    else if (0 <? NetTally.network_warning t)%Z then "warning"
    else "normal" in
  Ok (NetSummary.make (now e) overall_network_status
        (Z.of_nat (List.length (NetTally.all_network_data t)))
        (NetTally.total_interfaces t) (round (NetTally.total_throughput t) 2)
        (NetTally.network_critical t) (NetTally.network_warning t)
        (NetTally.network_normal t) (NetTally.all_network_data t)).

(** ** [generate_server_from_sensors] *)

Module Server.
Record t : Type := make {
  rack_id : Z;
  server_id : Z;
  server_name : string;
  temperature : pyfloat;
  power_usage : pyfloat;
  cpu_usage : pyfloat;
  memory_usage : pyfloat;
  network_usage : pyfloat;
  thermal : string;
  power : string;
  network : string;
  cooling : string;
  overall : string;
  u_position : Z;
  slot : string
}.
End Server.

(** The names with ['cpu' in k.lower() and 'temp' in k.lower()]. *)
Definition is_cpu_temp (sensor_name : string) : bool :=
  contains "cpu" (lower sensor_name) && contains "temp" (lower sensor_name).

(** The temperature of the first sensor named after the server. *)
Definition named_cpu_temp (server_id : Z) (rack_sensors : dict string Sensor.t)
    : option pyfloat :=
  let cpu_patterns :=
    ["CPU" ++ Py.str_of_Z server_id; "CPU " ++ Py.str_of_Z server_id;
     "P" ++ Py.str_of_Z server_id] in
  match find (fun item : string * Sensor.t =>
                let sensor_lower := lower (fst item) in
                existsb (fun pattern =>
                           contains (lower pattern) sensor_lower
                           && contains "temp" sensor_lower) cpu_patterns)
             rack_sensors with
  | Some (_, sensor_data) => Some (Sensor.value sensor_data)
  | None => None
  end.

Definition server_cpu_temp (server_id : Z) (rack_sensors : dict string Sensor.t)
    : result pyfloat :=
  match named_cpu_temp server_id rack_sensors with
  | Some cpu_temp => Ok cpu_temp
  | None =>
      let cpu_temps :=
        map (fun item : string * Sensor.t => Sensor.value (snd item))
            (filter (fun item : string * Sensor.t => is_cpu_temp (fst item))
                    rack_sensors) in
      if negb (Nat.eqb (List.length cpu_temps) 0)
         && (server_id <=? Z.of_nat (List.length cpu_temps))%Z
      then index cpu_temps (server_id - 1)
      else
        do rack_temp <- calculate_rack_temperature rack_sensors;
        do position_factor <- truediv (server_id - 1) 10;
        Ok (sub (add rack_temp (scale position_factor 5)) (Fin 2.5))
  end.

(** The statuses and the usages that the sensors decide, before the two
    random draws: [(cpu_temp, thermal, power, network_usage, network,
    cooling, overall, cpu_usage)]. *)
Definition server_readings (server_id : Z) (rack_sensors : dict string Sensor.t)
    : result (pyfloat * string * string * pyfloat * string * string * string
              * pyfloat) :=
  do cpu_temp <- server_cpu_temp server_id rack_sensors;
  let thermal_status :=
    if gt cpu_temp (Fin 85) then "critical"
    else if gt cpu_temp (Fin 75) then "warning"
    else if lt cpu_temp (Fin 20) then "cold"
    else "normal" in
  let power_values :=
    map (fun item : string * Sensor.t => Sensor.value (snd item))
        (filter (fun item : string * Sensor.t =>
                   contains_any ["power"; "watt"] (lower (fst item)))
                rack_sensors) in
  do power_status <-
    match power_values with
    | [] => Ok "normal"
    | _ :: _ =>
        do avg_power <- div (sum power_values) (of_len (List.length power_values));
        Ok (if gt avg_power (Fin 1000) then "critical"
            else if gt avg_power (Fin 800) then "warning"
            else "normal")
    end;
  let network_values :=
    map (fun item : string * Sensor.t => Sensor.value (snd item))
        (filter (fun item : string * Sensor.t =>
                   String.eqb (Sensor.type (snd item)) "network")
                rack_sensors) in
  do network <-
    match network_values with
    | [] => Ok (Fin 50, "normal")
    | _ :: _ =>
        let total_network := sum network_values in
        let server_count :=
          Nat.max 1 (List.length
                       (filter (fun item : string * Sensor.t => is_cpu_temp (fst item))
                               rack_sensors)) in
        do per_server <- div total_network (of_len server_count);
        do position <- truediv server_id (Z.of_nat server_count);
        let network_usage := min2 (Fin 100) (mul per_server position) in
        Ok (network_usage,
            if gt network_usage (Fin 95) then "critical"
            else if gt network_usage (Fin 85) then "warning"
            else "normal")
    end;
  let (network_usage, network_status) := network in
  let cooling_status :=
    if gt cpu_temp (Fin 75) then "insufficient"
    else if lt cpu_temp (Fin 25) then "excessive"
    else "normal" in
  let overall_status :=
    if String.eqb thermal_status "critical" then "critical"
    else if String.eqb thermal_status "warning" then "warning"
    else "normal" in
  let cpu_usage := min2 (Fin 100) (max2 (Fin 0) (scale (sub cpu_temp (Fin 30)) 1.5)) in
  Ok (cpu_temp, thermal_status, power_status, network_usage, network_status,
      cooling_status, overall_status, cpu_usage).

(** The answer and the position of the generator afterwards; an exception
    is raised before any draw. *)
Definition generate_server_from_sensors (e : env) (rack_id server_id : Z)
    (rack_sensors : dict string Sensor.t) (pos : nat) : result Server.t * nat :=
  match server_readings server_id rack_sensors with
  | Err msg => (Err msg, pos)
  | Ok (cpu_temp, thermal_status, power_status, network_usage, network_status,
        cooling_status, overall_status, cpu_usage) =>
      let (u, pos) := uniform e (-10) 20 pos in
      let memory_usage := add (Fin 40) u in
      let (w, pos) := uniform e (-50) 100 pos in
      (Ok (Server.make rack_id server_id
             ("Rack" ++ Py.str_of_Z rack_id ++ "_Server" ++ Py.str_of_Z server_id)
             (round cpu_temp 1) (round (add (Fin 300) w) 0) (round cpu_usage 1)
             (round memory_usage 1) (round network_usage 1)
             thermal_status power_status network_status cooling_status
             overall_status server_id ("U" ++ Py.str_of_Z server_id)),
       pos)
  end.

(** ** [get_rack_servers] and [get_server_metrics] *)

(** The answer of a handler that looks a rack up: the body of the 200
    answer, or the 404 answer with its [error] and, where the handler
    gives them, the [available_racks]. *)
Inductive reply (A : Type) : Type :=
| Found (body : A)
| NotFound (error : string) (available_racks : option (list Z)).
Arguments Found {A} body.
Arguments NotFound {A} error available_racks.

(** [cpu\d+] *)
Definition cpu_number : Re.regex := Re.Seq (Re.lit "cpu") (Re.Plus is_digit).

(** The sensors [get_rack_servers] counts the servers by. *)
Definition cpu_sensors (sensors : dict string Sensor.t) : list string :=
  match filter is_cpu_temp (Dict.keys sensors) with
  | [] =>
      filter (fun sensor_name =>
                match Re.search cpu_number (lower sensor_name) with
                | Some _ => true
                | None => false
                end) (Dict.keys sensors)
  | names => names
  end.

(** [max(1, len(cpu_sensors) if cpu_sensors else 2)] *)
Definition count_servers (cpu_sensors : list string) : nat :=
  Nat.max 1 (match cpu_sensors with [] => 2 | _ => List.length cpu_sensors end).

(** The list comprehension over the server ids, on the generator. *)
Fixpoint generate_servers (e : env) (rack_id : Z) (server_ids : list Z)
    (rack_sensors : dict string Sensor.t) (pos : nat)
    : result (list Server.t) * nat :=
  match server_ids with
  | [] => (Ok [], pos)
  | server_id :: rest =>
      match generate_server_from_sensors e rack_id server_id rack_sensors pos with
      | (Err msg, pos) => (Err msg, pos)
      | (Ok server_data, pos) =>
          match generate_servers e rack_id rest rack_sensors pos with
          | (Err msg, pos) => (Err msg, pos)
          | (Ok servers, pos) => (Ok (server_data :: servers), pos)
          end
      end
  end.

Module RackServers.
Record t : Type := make {
  rack_id : Z;
  server_count : Z;
  servers : list Server.t
}.
End RackServers.

Definition get_rack_servers (e : env) (rack_id : Z) : M (reply RackServers.t) :=
  fun g =>
    match Dict.get (rack_data g) rack_id with
    | None =>
        (Ok (NotFound ("Rack " ++ Py.str_of_Z rack_id ++ " not found")
               (Some (sorted_keys (Dict.keys (rack_data g))))), g)
    | Some rack_info =>
        let server_count := count_servers (cpu_sensors (Rack.sensors rack_info)) in
        match generate_servers e rack_id (range_from_1 server_count)
                (Rack.sensors rack_info) (rng g) with
        | (Ok servers, pos) =>
            (Ok (Found (RackServers.make rack_id (Z.of_nat server_count) servers)),
             set_rng pos g)
        | (Err msg, pos) => (Err msg, set_rng pos g)
        end
    end.

Definition get_server_metrics (e : env) (rack_id server_id : Z) : M (reply Server.t) :=
  fun g =>
    match Dict.get (rack_data g) rack_id with
    | None => (Ok (NotFound ("Rack " ++ Py.str_of_Z rack_id ++ " not found") None), g)
    | Some rack_info =>
        let max_servers :=
          count_servers (filter is_cpu_temp (Dict.keys (Rack.sensors rack_info))) in
        if (server_id <? 1)%Z || (Z.of_nat max_servers <? server_id)%Z then
          (Ok (NotFound ("Server " ++ Py.str_of_Z server_id ++ " not found in rack "
                         ++ Py.str_of_Z rack_id) None), g)
        else
          match generate_server_from_sensors e rack_id server_id
                  (Rack.sensors rack_info) (rng g) with
          | (Ok server_data, pos) => (Ok (Found server_data), set_rng pos g)
          | (Err msg, pos) => (Err msg, set_rng pos g)
          end
    end.

End Api.

(* ================================================================== *)
(** * What the summaries count *)

Module Census.
Import Text Float App Api.

(** The number of racks of the registry whose status is [status]. *)
Definition racks_in (status : string) (g : globals) : Z :=
  Z.of_nat (List.length
    (filter (fun rack : Rack.t => String.eqb (Rack.status rack) status)
            (Dict.values (rack_data g)))).

(** The racks that have network interfaces. *)
Definition networked (g : globals) : list Rack.t :=
  filter (fun rack : Rack.t => (0 <? Metrics.interface_count (Rack.network rack))%Z)
         (Dict.values (rack_data g)).

(** The number of racks with interfaces whose network status is [status]. *)
Definition networks_in (status : string) (g : globals) : Z :=
  Z.of_nat (List.length
    (filter (fun rack : Rack.t =>
               String.eqb (Metrics.status (Rack.network rack)) status)
            (networked g))).

(** The rack has at least one interface. *)
Definition has_interfaces (rack : Rack.t) : bool :=
  (0 <? Metrics.interface_count (Rack.network rack))%Z.

(** The number of the keys [ks] whose rack, as [rack_data] holds it,
    passes [q]. *)
Definition tally_of (g : globals) (q : Rack.t -> bool) (ks : list Z) : Z :=
  Z.of_nat (List.length
    (filter (fun k => match Dict.get (rack_data g) k with
                      | Some rack => q rack
                      | None => false
                      end) ks)).

(** A float that is not above 100: a number up to 100, or minus infinity. *)
Definition at_most_100 (x : pyfloat) : Prop :=
  x = NInf \/ exists q, x = Fin q /\ (q <= 100)%Q.

(** How the statuses of a server hang together: the overall status
    follows the thermal one alone, the cooling is insufficient exactly for
    a warm or hot server, and a cold server is cooled in excess. *)
Definition coherent (thermal cooling overall : string) : Prop :=
  (overall = "critical" <-> thermal = "critical")
  /\ (overall = "warning" <-> thermal = "warning")
  /\ (overall = "normal" <-> thermal = "normal" \/ thermal = "cold")
  /\ (cooling = "insufficient" <-> thermal = "critical" \/ thermal = "warning")
  /\ (thermal = "cold" -> cooling = "excessive").

(** The sensor name holds 'cpu' followed by a digit. *)
Definition has_cpu_number (sensor_name : string) : bool :=
  match Re.search cpu_number (lower sensor_name) with
  | Some _ => true
  | None => false
  end.

(** The number of servers [get_rack_servers] lists: one for each sensor
    named after a CPU temperature; failing any, one for each sensor named
    after a numbered CPU; failing these too, two. *)
Definition listed_servers (sensors : dict string Sensor.t) : nat :=
  match filter is_cpu_temp (Dict.keys sensors) with
  | [] =>
      match filter has_cpu_number (Dict.keys sensors) with
      | [] => 2
      | names => List.length names
      end
  | names => List.length names
  end.

(** The number of servers [get_server_metrics] answers for: one for each
    sensor named after a CPU temperature; failing any, two. *)
Definition found_servers (sensors : dict string Sensor.t) : nat :=
  match filter is_cpu_temp (Dict.keys sensors) with
  | [] => 2
  | names => List.length names
  end.

(** A character of the body of a metric name: a lower-case letter, a
    digit or the underscore. *)
Definition is_metric_char (c : ascii) : bool :=
  is_lower c || is_digit c || Ascii.eqb c "_".

(** No two underscores stand side by side. *)
Fixpoint no_double_underscore (s : string) : bool :=
  match s with
  | String a (String b _ as s') =>
      negb (Ascii.eqb a "_" && Ascii.eqb b "_") && no_double_underscore s'
  | _ => true
  end.

Fixpoint last_char (s : string) : option ascii :=
  match s with
  | EmptyString => None
  | String c EmptyString => Some c
  | String _ s' => last_char s'
  end.

Definition first_char (s : string) : option ascii :=
  match s with
  | EmptyString => None
  | String c _ => Some c
  end.

End Census.

(* ================================================================== *)
(** * The longest numeral at the start of a text *)

Module Longest.
Import Text Re.









End Longest.


(* ================================================================== *)
(** * Properties *)

(** ** Text *)

Module TextFacts.
Import Text.

Lemma append_assoc (a b c : string) : (a ++ b) ++ c = a ++ (b ++ c).
Proof. induction a as [|x a IH]; simpl; [reflexivity | now rewrite IH]. Qed.



Lemma prefix_spec (p s : string) :
  prefix p s = true <-> exists b, s = p ++ b.
Proof.
  revert s; induction p as [|x p IH]; intros s.
  - destruct s; simpl; split; eauto.
  - destruct s as [|y s]; simpl.
    + split; [discriminate | intros [b Hb]; discriminate].
    + destruct (ascii_dec x y) as [->|Hne].
      * rewrite IH. split; intros [b Hb]; exists b; congruence.
      * split; [discriminate | intros [b Hb]; congruence].
Qed.

(** [p in s] holds exactly when [p] occurs somewhere in [s]. *)
Lemma contains_spec (p s : string) :
  contains p s = true <-> exists a b, s = a ++ p ++ b.
Proof.
  induction s as [|y s IH]; cbn [contains].
  - rewrite orb_false_r, prefix_spec. split.
    + intros [b Hb]. exists "", b. exact Hb.
    + intros [a [b Hb]]. destruct a; simpl in Hb; [eauto | discriminate].
  - rewrite orb_true_iff, prefix_spec, IH. split.
    + intros [[b Hb] | [a [b Hb]]].
      * exists "", b. exact Hb.
      * exists (String y a), b. simpl. now rewrite Hb.
    + intros [a [b Hb]]. destruct a as [|x a]; simpl in Hb.
      * left. eauto.
      * right. injection Hb as _ Hb. eauto.
Qed.

Lemma contains_mono (p q s : string) :
  contains p q = true -> contains q s = true -> contains p s = true.
Proof.
  rewrite !contains_spec. intros [a [b ->]] [c [d ->]].
  exists (c ++ a), (b ++ d). now rewrite !append_assoc.
Qed.
End TextFacts.

(** ** Numbers *)

Module FloatFacts.
Import Float.

Lemma Qltb_lt (a b : Q) : Qltb a b = true <-> (a < b)%Q.
Proof.
  unfold Qltb. rewrite negb_true_iff, <- not_true_iff_false, Qle_bool_iff.
  split; [apply Qnot_le_lt | apply Qlt_not_le].
Qed.

Lemma Qltb_ge (a b : Q) : Qltb a b = false <-> (b <= a)%Q.
Proof.
  unfold Qltb. rewrite negb_false_iff. apply Qle_bool_iff.
Qed.

Lemma one_lt_overflow : (1 < overflow_bound)%Q.
Proof. unfold Qlt. vm_compute. reflexivity. Qed.

(** Below the overflow bound a rational is stored as itself. *)
Lemma of_Q_finite (q : Q) :
  (Qabs q < overflow_bound)%Q -> of_Q q = Fin (Qred q).
Proof.
  intros H. unfold of_Q.
  destruct (Qle_bool overflow_bound (Qabs q)) eqn:E; [|reflexivity].
  apply Qle_bool_iff in E. exfalso. exact (Qlt_not_le _ _ H E).
Qed.


Lemma gt_Fin (x y : Q) : gt (Fin x) (Fin y) = true <-> (y < x)%Q.
Proof. unfold gt, lt. apply Qltb_lt. Qed.

Lemma lt_asym (a b : pyfloat) : lt a b = true -> lt b a = false.
Proof.
  destruct a, b; simpl; try reflexivity; try discriminate.
  rewrite Qltb_lt, Qltb_ge. apply Qlt_le_weak.
Qed.

End FloatFacts.

(** ** Rack status *)

Module StatusFacts.
Import Text Float App Spec FloatFacts.

(** Every sensor raises exactly one of the three counters by one. *)
Lemma count_sensor_cases (c w n : Z) (item : string * Sensor.t) :
  count_sensor (c, w, n) item = (c + 1, w, n)%Z \/
  count_sensor (c, w, n) item = (c, w + 1, n)%Z \/
  count_sensor (c, w, n) item = (c, w, n + 1)%Z.
Proof.
  destruct item as [name data]. unfold count_sensor.
  repeat match goal with
         | |- context [if ?b then _ else _] => destruct b
         end; auto.
Qed.

Lemma count_fold (sensors : dict string Sensor.t) :
  forall c w n c' w' n',
    fold_left count_sensor sensors (c, w, n) = (c', w', n') ->
    (c' + w' + n' = c + w + n + Z.of_nat (List.length sensors)
     /\ c <= c' /\ w <= w' /\ n <= n')%Z.
Proof.
  induction sensors as [|item sensors IH]; intros c w n c' w' n' H.
  - simpl in H. injection H as <- <- <-. simpl. lia.
  - cbn [fold_left] in H.
    destruct (count_sensor_cases c w n item) as [E | [E | E]];
      rewrite E in H; apply IH in H; cbn [List.length]; lia.
Qed.

Lemma share_le_1 (count total : Z) :
  (0 <= count <= total)%Z -> (0 < total)%Z -> (0 <= share count total <= 1)%Q.
Proof.
  intros Hc Ht. unfold share.
  assert (Hq : (0 < inject_Z total)%Q) by (rewrite <- (Zlt_Qlt 0); exact Ht).
  split.
  - apply Qle_shift_div_l; [exact Hq|]. rewrite Qmult_0_l.
    rewrite <- (Zle_Qle 0). lia.
  - apply Qle_shift_div_r; [exact Hq|]. rewrite Qmult_1_l.
    rewrite <- Zle_Qle. lia.
Qed.

(** The guarded comparison [count > 0 and count / total > bound] never
    raises, and agrees with the comparison of the exact share. *)
Lemma share_exceeds_spec (count total : Z) (bound : Q) :
  (0 <= count <= total)%Z -> (0 < total)%Z ->
  exists b, share_exceeds count total bound = Ok b
            /\ (b = true <-> (0 < count)%Z /\ (bound < share count total)%Q).
Proof.
  intros Hc Ht. unfold share_exceeds, truediv.
  destruct (0 <? count)%Z eqn:E.
  - apply Z.ltb_lt in E.
    replace (total =? 0)%Z with false by (symmetry; apply Z.eqb_neq; lia).
    cbn [bind]. fold (share count total).
    rewrite of_Q_finite.
    + eexists; split; [reflexivity|]. rewrite gt_Fin, Qred_correct. tauto.
    + destruct (share_le_1 Hc Ht) as [H0 H1].
      rewrite Qabs_pos by exact H0.
      eapply Qle_lt_trans; [exact H1 | exact one_lt_overflow].
  - exists false. split; [reflexivity|].
    apply Z.ltb_ge in E. split; [discriminate | lia].
Qed.

(** What [calculate_rack_status] returns, from the three counters of its
    loop. *)
Lemma rack_status_decision (sensors : dict string Sensor.t) (c w n : Z) :
  sensors <> [] -> count_sensors sensors = (c, w, n) ->
  let total := Z.of_nat (List.length sensors) in
  exists critical warning,
    (critical = true <-> (0 < c)%Z /\ (0.1 < share c total)%Q)
    /\ (warning = true <-> (0 < w)%Z /\ (0.2 < share w total)%Q)
    /\ calculate_rack_status sensors =
       Ok (if critical then "critical" else if warning then "warning" else "normal").
Proof.
  intros Hne E total. pose proof E as E'. unfold count_sensors in E'.
  apply count_fold in E'. fold total in E'.
  assert (Hpos : (0 < total)%Z).
  { subst total. destruct sensors; [congruence | cbn [List.length]; lia]. }
  assert (Hcb : (0 <= c <= total)%Z) by lia.
  assert (Hwb : (0 <= w <= total)%Z) by lia.
  destruct (share_exceeds_spec 0.1 Hcb Hpos) as [critical [Ec Sc]].
  destruct (share_exceeds_spec 0.2 Hwb Hpos) as [warning [Ew Sw]].
  exists critical, warning. split; [exact Sc|]. split; [exact Sw|].
  unfold calculate_rack_status. rewrite E.
  replace (c + w + n)%Z with total by lia.
  replace (total =? 0)%Z with false by (symmetry; apply Z.eqb_neq; lia).
  rewrite Ec. cbn [bind]. destruct critical; [reflexivity|].
  rewrite Ew. cbn [bind]. destruct warning; reflexivity.
Qed.

(** [calculate_rack_status] never raises. *)
Lemma rack_status_total (sensors : dict string Sensor.t) :
  exists status, calculate_rack_status sensors = Ok status.
Proof.
  destruct sensors as [|item sensors].
  - exists "unknown". reflexivity.
  - destruct (count_sensors (item :: sensors)) as [[c w] n] eqn:E.
    destruct (@rack_status_decision (item :: sensors) c w n) as [bc [bw [_ [_ H]]]];
      [discriminate | exact E | eauto].
Qed.

Lemma non_critical_has_critical (s : string) :
  contains "non-critical" s = true -> contains "critical" s = true.
Proof.
  intros H. apply (@TextFacts.contains_mono "critical" "non-critical" s);
    [reflexivity | exact H].
Qed.

Lemma temperature_has_temp (s : string) :
  contains "temperature" s = true -> contains "temp" s = true.
Proof.
  intros H. apply (@TextFacts.contains_mono "temp" "temperature" s);
    [reflexivity | exact H].
Qed.

Lemma count_cons (p : string * Sensor.t -> bool) (item : string * Sensor.t)
    (sensors : dict string Sensor.t) :
  count p (item :: sensors) = (Z.b2z (p item) + count p sensors)%Z.
Proof.
  unfold count. cbn [filter]. destruct (p item); cbn [List.length Z.b2z]; lia.
Qed.

(** One turn of the loop against the classification: the sensor raises
    the counter of its effective status, but for a misread sensor, which
    raises the critical counter, and an overlooked one, which raises the
    normal counter. *)
Lemma count_sensor_level (c w n : Z) (item : string * Sensor.t) :
  let '(c', w', n') := count_sensor (c, w, n) item in
  c' = (c + Z.b2z (has_level Critical item) + Z.b2z (misread item)
        - Z.b2z (overlooked_hot item))%Z
  /\ w' = (w + Z.b2z (has_level Warning item) - Z.b2z (misread item)
           - Z.b2z (overlooked_warm item))%Z
  /\ (c' + w' + n' = c + w + n + 1)%Z.
Proof.
  destruct item as [name data].
  unfold count_sensor, has_level, effective_status, misread, overlooked_hot,
    overlooked_warm, overlooked, unrecognized, has_temperature_keyword,
    contains_any.
  cbn [fst snd existsb].
  pose proof (@non_critical_has_critical (lower (Sensor.status data))) as Hnc.
  pose proof (@temperature_has_temp (lower name)) as Htt.
  destruct (contains "non-critical" (lower (Sensor.status data)));
    [rewrite (Hnc eq_refl)|];
    (destruct (contains "temperature" (lower name));
     [rewrite (Htt eq_refl)|]);
    destruct (contains "critical" (lower (Sensor.status data)));
    destruct (contains "non-recoverable" (lower (Sensor.status data)));
    destruct (contains "warning" (lower (Sensor.status data)));
    destruct (contains "ok" (lower (Sensor.status data)));
    destruct (contains "normal" (lower (Sensor.status data)));
    destruct (contains "temp" (lower name));
    destruct (contains "thermal" (lower name));
    destruct (gt (Sensor.value data) (Fin 85));
    destruct (gt (Sensor.value data) (Fin 75));
    cbn [orb andb negb level_eqb Z.b2z]; repeat split; lia.
Qed.

(** The counters of the loop against the counts of the classification. *)
Lemma count_sensors_levels (sensors : dict string Sensor.t) :
  forall c w n,
    let '(c', w', n') := fold_left count_sensor sensors (c, w, n) in
    c' = (c + critical_count sensors + count misread sensors
          - count overlooked_hot sensors)%Z
    /\ w' = (w + warning_count sensors - count misread sensors
             - count overlooked_warm sensors)%Z.
Proof.
  unfold critical_count, warning_count.
  induction sensors as [|item sensors IH]; intros c w n.
  - cbn. split; lia.
  - cbn [fold_left]. pose proof (count_sensor_level c w n item) as H1.
    destruct (count_sensor (c, w, n) item) as [[c1 w1] n1].
    destruct H1 as (Hc & Hw & _). specialize (IH c1 w1 n1).
    destruct (fold_left count_sensor sensors (c1, w1, n1)) as [[c' w'] n'].
    destruct IH as [Hc' Hw']. rewrite !count_cons. split; lia.
Qed.

(** C1.  The thresholds of [calculate_rack_status] are those of the
    claim: 'critical' exactly when the critical count is positive and its
    share of all sensors is strictly above 0.10; failing that, 'warning'
    exactly when the warning count is positive and its share is strictly
    above 0.20; failing both, 'normal'; 'unknown' for no sensor at all; and
    exactly 10% is not critical.  But the counts it compares are not those
    of the classification: every misread sensor, whose status text holds
    'non-critical', is in its critical count and not in its warning count,
    and an overlooked sensor, named after 'thermal' alone with a status
    text it does not know, is in neither count.  Where no sensor is
    misread or overlooked the answer is the one the claim gives. *)
Theorem C1_rack_status_counts_misread_sensors (sensors : dict string Sensor.t) :
  let total := total_sensors sensors in
  let c := (critical_count sensors + count misread sensors
            - count overlooked_hot sensors)%Z in
  let w := (warning_count sensors - count misread sensors
            - count overlooked_warm sensors)%Z in
  let critical := (0 < c)%Z /\ (0.1 < share c total)%Q in
  let warning := (0 < w)%Z /\ (0.2 < share w total)%Q in
  (sensors = [] -> calculate_rack_status sensors = Ok "unknown") /\
  (sensors <> [] ->
     (calculate_rack_status sensors = Ok "critical" <-> critical) /\
     (calculate_rack_status sensors = Ok "warning" <-> ~ critical /\ warning) /\
     (calculate_rack_status sensors = Ok "normal" <-> ~ critical /\ ~ warning) /\
     ((10 * c = total)%Z -> calculate_rack_status sensors <> Ok "critical")) /\
  (count misread sensors = 0%Z -> count overlooked_hot sensors = 0%Z ->
   count overlooked_warm sensors = 0%Z ->
   c = critical_count sensors /\ w = warning_count sensors).
Proof.
  intros total c w critical warning. split; [|split].
  - intros ->. reflexivity.
  - intros Hne.
    pose proof (count_sensors_levels sensors 0 0 0) as Hl.
    destruct (fold_left count_sensor sensors (0, 0, 0)%Z) as [[c' w'] n'] eqn:E.
    destruct Hl as [Hc Hw]. cbn [Z.add] in Hc, Hw. fold c in Hc. fold w in Hw.
    subst c' w'.
    destruct (@rack_status_decision sensors c w n' Hne E)
      as (bc & bw & Sc & Sw & H).
    change (bc = true <-> critical) in Sc. change (bw = true <-> warning) in Sw.
    assert (Hpos : (0 < total)%Z).
    { unfold total, total_sensors. destruct sensors;
        [congruence | cbn [List.length]; lia]. }
    assert (Hten : (10 * c = total)%Z -> ~ critical).
    { intros H10 [_ Hlt]. revert Hlt. destruct total as [|p|p]; try lia.
      unfold share, Qlt, Qdiv, Qmult, Qinv, inject_Z. cbn. lia. }
    assert (Hc1 : bc = true -> critical) by tauto.
    assert (Hc0 : bc = false -> ~ critical)
      by (intros Hb Hk; apply Sc in Hk; congruence).
    assert (Hw1 : bw = true -> warning) by tauto.
    assert (Hw0 : bw = false -> ~ warning)
      by (intros Hb Hk; apply Sw in Hk; congruence).
    clear Sc Sw. rewrite H.
    destruct bc; [specialize (Hc1 eq_refl) | specialize (Hc0 eq_refl)];
      (destruct bw; [specialize (Hw1 eq_refl) | specialize (Hw0 eq_refl)]);
      repeat split; try discriminate; try tauto;
      try (intros; exfalso; tauto); try (apply Hc1); try (apply Hw1).
  - intros H1 H2 H3. unfold c, w. split; lia.
Qed.

(** One fan that reports 'Lower Non-Critical' among five sensors: the
    classification has no critical sensor and one warning, a share of 20%
    that is not above 20%, so that the claim gives 'normal'; the fan is
    misread, the loop has one critical sensor in five, and the rack is
    'critical'. *)
Lemma C1_non_critical_fan_among_five :
  let ok name := (name, Sensor.make (Fin 30) "ok" "" "sensor" None) in
  let fan := ("FAN1", Sensor.make (Fin 900) "Lower Non-Critical" "RPM" "sensor" None) in
  let sensors := [fan; ok "CPU1 Temp"; ok "CPU2 Temp"; ok "12V"; ok "FAN2"] in
  critical_count sensors = 0%Z /\ warning_count sensors = 1%Z
  /\ total_sensors sensors = 5%Z
  /\ ~ (0.2 < share (warning_count sensors) (total_sensors sensors))%Q
  /\ count misread sensors = 1%Z
  /\ calculate_rack_status sensors = Ok "critical".
Proof.
  intros ok fan sensors.
  split; [reflexivity|]. split; [reflexivity|]. split; [reflexivity|].
  split; [intros H; vm_compute in H; discriminate|]. split; [reflexivity|].
  destruct (@C1_rack_status_counts_misread_sensors sensors) as (_ & H & _).
  destruct H as (Hcrit & _); [discriminate|].
  apply Hcrit. split; [vm_compute; reflexivity|]. vm_compute. reflexivity.
Defined.

(** One critical sensor among ten is exactly 10%: the rack stays normal;
    an eleventh sensor that is critical too tips it. *)
Example ten_percent_is_not_critical :
  let ok name := (name, Sensor.make (Fin 30) "ok" "" "sensor" None) in
  let bad name := (name, Sensor.make (Fin 30) "Critical" "" "sensor" None) in
  let nine := map ok ["a"; "b"; "c"; "d"; "e"; "f"; "g"; "h"; "i"] in
  calculate_rack_status (bad "x" :: nine) = Ok "normal"
  /\ calculate_rack_status (bad "x" :: bad "y" :: nine) = Ok "critical".
Proof. split; vm_compute; reflexivity. Qed.

(** C2. The claim wants a sensor whose status text contains 'non-critical'
    counted as a warning.  The loop tests for 'critical' first, and every
    text that contains 'non-critical' contains 'critical': such a sensor
    raises the critical counter, and the 'non-critical' test is never
    reached. *)
Theorem C2_non_critical_counts_as_critical
    (sensor_name : string) (sensor_data : Sensor.t) (c w n : Z) :
  contains "non-critical" (lower (Sensor.status sensor_data)) = true ->
  count_sensor (c, w, n) (sensor_name, sensor_data) = (c + 1, w, n)%Z.
Proof.
  intros H. unfold count_sensor.
  rewrite (non_critical_has_critical _ H). reflexivity.
Qed.

(** A fan reporting 'Lower Non-Critical' is counted critical, and a rack
    of that one sensor is critical. *)
Lemma C2_lower_non_critical_fan :
  let fan := Sensor.make (Fin 900) "Lower Non-Critical" "RPM" "sensor" None in
  contains "non-critical" (lower (Sensor.status fan)) = true
  /\ count_sensor (0, 0, 0)%Z ("FAN1", fan) = (0 + 1, 0, 0)%Z
  /\ calculate_rack_status [("FAN1", fan)] = Ok "critical".
Proof.
  intros fan. split; [reflexivity|]. split.
  - apply (@C2_non_critical_counts_as_critical "FAN1" fan 0 0 0). reflexivity.
  - reflexivity.
Defined.

End StatusFacts.

(** ** Rack temperature *)

Module TemperatureFacts.
Import Text Float App Spec FloatFacts.

Lemma insert_perm (x : pyfloat) (l : list pyfloat) :
  Permutation (x :: l) (insert x l).
Proof.
  induction l as [|y l IH]; cbn [insert]; [reflexivity|].
  destruct (lt x y); [reflexivity|].
  rewrite perm_swap. now apply perm_skip.
Qed.

Lemma insert_hd (y x : pyfloat) (l : list pyfloat) :
  HdRel (fun a b => lt b a = false) y l -> lt x y = false ->
  HdRel (fun a b => lt b a = false) y (insert x l).
Proof.
  intros Hl Hxy. destruct l as [|z l]; cbn [insert].
  - constructor. exact Hxy.
  - destruct (lt x z); constructor; [exact Hxy | now inversion Hl].
Qed.

Lemma insert_ascending (x : pyfloat) (l : list pyfloat) :
  ascending l -> ascending (insert x l).
Proof.
  unfold ascending. induction 1 as [|y l Hs IH Hhd]; cbn [insert].
  - repeat constructor.
  - destruct (lt x y) eqn:E.
    + constructor; [now constructor|]. constructor. now apply lt_asym.
    + constructor; [exact IH|]. now apply insert_hd.
Qed.

Lemma sorted_fold (xs : list pyfloat) :
  forall acc, ascending acc ->
    let r := fold_left (fun acc x => insert x acc) xs acc in
    Permutation (acc ++ xs) r /\ ascending r.
Proof.
  induction xs as [|x xs IH]; intros acc Hacc; cbn [fold_left].
  - rewrite app_nil_r. split; [reflexivity | exact Hacc].
  - destruct (IH (insert x acc) (insert_ascending x Hacc)) as [Hp Hs].
    split; [|exact Hs].
    rewrite <- Hp, <- insert_perm. symmetry. apply Permutation_middle.
Qed.

(** [sorted] returns its argument rearranged in ascending order. *)
Lemma sorted_spec (xs : list pyfloat) :
  Permutation xs (sorted xs) /\ ascending (sorted xs).
Proof.
  apply (sorted_fold xs (acc := [])). constructor.
Qed.

(** The mean of a non-empty list is defined. *)
Lemma mean_defined (xs : list pyfloat) :
  xs <> [] -> exists m, mean xs = Ok m.
Proof.
  intros Hne. unfold mean, div, of_len.
  destruct xs as [|x xs]; [congruence|]. cbn [List.length].
  assert (E : Qeq_bool (inject_Z (Z.of_nat (S (List.length xs)))) 0 = false).
  { apply not_true_iff_false. intros E. apply Qeq_bool_eq in E. revert E.
    unfold Qeq, inject_Z. cbn [Qnum Qden]. lia. }
  destruct (sum (x :: xs)); rewrite E; eauto.
Qed.

(** [l[start:stop]] holds the elements at the indices from [start] up to,
    not including, [stop]. *)
Lemma slice_spec {A} (l : list A) (start stop : nat) :
  (stop <= List.length l)%nat ->
  List.length (slice l start stop) = (stop - start)%nat
  /\ forall i, (start <= i < stop)%nat ->
       nth_error (slice l start stop) (i - start) = nth_error l i.
Proof.
  intros Hstop. unfold slice. split.
  - rewrite length_firstn, length_skipn. lia.
  - intros i Hi. rewrite nth_error_firstn, nth_error_skipn.
    replace (i - start <? stop - start)%nat with true
      by (symmetry; apply Nat.ltb_lt; lia).
    f_equal. lia.
Qed.

Lemma quartile_cuts (n : nat) :
  (4 < n)%nat -> (n / 4 < 3 * n / 4 /\ 3 * n / 4 <= n)%nat.
Proof.
  intros Hn. split.
  - apply Nat.div_le_lower_bound; [lia|].
    pose proof (Nat.Div0.mul_div_le n 4). lia.
  - apply Nat.Div0.div_le_upper_bound. lia.
Qed.

(** [calculate_rack_temperature] never raises. *)
Lemma rack_temperature_total (sensors : dict string Sensor.t) :
  exists t, calculate_rack_temperature sensors = Ok t.
Proof.
  unfold calculate_rack_temperature.
  destruct (fold_left collect_temp sensors []) as [|x xs] eqn:E; [eauto|].
  set (temps := x :: xs).
  set (middle := if (4 <? _)%nat then _ else _).
  assert (Hne : middle <> []).
  { subst middle. destruct (sorted_spec temps) as [Hp _].
    apply Permutation_length in Hp.
    destruct (4 <? List.length (sorted temps))%nat eqn:E4; [|discriminate].
    apply Nat.ltb_lt in E4. destruct (quartile_cuts E4) as [Hlt Hle].
    destruct (slice_spec (sorted temps)
                (List.length (sorted temps) / 4) Hle) as [Hlen _].
    intros Hnil. rewrite Hnil in Hlen. cbn [List.length] in Hlen. lia. }
  destruct (mean_defined Hne) as [m Hm]. unfold mean in Hm. rewrite Hm.
  cbn [bind]. eauto.
Qed.

(** A sensor whose name lacks 'temp' adds nothing to [temps]. *)
Lemma collect_temp_skips (temps : list pyfloat) (item : string * Sensor.t) :
  contains "temp" (lower (fst item)) = false -> collect_temp temps item = temps.
Proof.
  destruct item as [name data]. cbn [fst]. intros H. unfold collect_temp.
  rewrite H.
  destruct (contains "temperature" (lower name)) eqn:E; [|reflexivity].
  apply (@TextFacts.contains_mono "temp" "temperature" (lower name) eq_refl) in E.
  congruence.
Qed.

Lemma collect_temp_named (sensors : dict string Sensor.t) :
  forall temps,
    fold_left collect_temp
      (filter (fun item : string * Sensor.t => contains "temp" (lower (fst item)))
              sensors) temps
    = fold_left collect_temp sensors temps.
Proof.
  induction sensors as [|item sensors IH]; intros temps; [reflexivity|].
  cbn [filter fold_left].
  destruct (contains "temp" (lower (fst item))) eqn:E.
  - cbn [fold_left]. apply IH.
  - rewrite (collect_temp_skips temps item E). apply IH.
Qed.

(** C4.  [calculate_rack_temperature] gathers its samples from the
    sensors whose name holds 'temp' and from no other: what it answers for
    a rack is what it answers for these sensors alone, and for a rack
    without any it is the default 40.0.  A sensor named after 'thermal',
    a temperature sensor by the keywords of the classification, is left
    out whatever it reads. *)
Theorem C4_thermal_sensors_are_left_out (sensors : dict string Sensor.t) :
  calculate_rack_temperature sensors
  = calculate_rack_temperature
      (filter (fun item : string * Sensor.t => contains "temp" (lower (fst item)))
              sensors)
  /\ (Forall (fun item : string * Sensor.t =>
                contains "temp" (lower (fst item)) = false) sensors ->
      calculate_rack_temperature sensors = Ok (Fin 40)).
Proof.
  split.
  - unfold calculate_rack_temperature. now rewrite collect_temp_named.
  - intros H. unfold calculate_rack_temperature.
    assert (E : forall temps, fold_left collect_temp sensors temps = temps).
    { induction H as [|item sensors Hi _ IH]; intros temps; [reflexivity|].
      cbn [fold_left]. now rewrite (collect_temp_skips temps item Hi). }
    now rewrite E.
Qed.

(** A rack whose one temperature sensor is 'PCH Thermal' at 50 degrees:
    the sensor is a sample by the claim, whose mean is 50.0, and the answer
    is the default 40.0. *)
Lemma C4_pch_thermal_reads_40 :
  let sensors := [("PCH Thermal", Sensor.make (Fin 50) "ok" "degrees C" "sensor" None)] in
  Forall (fun item : string * Sensor.t =>
            contains "temp" (lower (fst item)) = false) sensors
  /\ temperature_samples sensors = [Fin 50]
  /\ (do m <- mean (temperature_samples sensors); Ok (round m 1)) = Ok (Fin 50)
  /\ calculate_rack_temperature sensors = Ok (Fin 40).
Proof.
  intros sensors.
  assert (H : Forall (fun item : string * Sensor.t =>
                        contains "temp" (lower (fst item)) = false) sensors).
  { repeat constructor. }
  split; [exact H|]. split; [reflexivity|]. split; [reflexivity|].
  exact (proj2 (@C4_thermal_sensors_are_left_out sensors) H).
Defined.

(** The five readings 10, 20, 30, 40 and 200 of the specification: 200 is
    no sample, and the four that remain are averaged as they are. *)
Example five_readings :
  let t name v := (name, Sensor.make (Fin v) "ok" "degrees C" "sensor" None) in
  calculate_rack_temperature
    [t "Temp 1" 10; t "Temp 2" 20; t "Temp 3" 30; t "Temp 4" 40; t "Temp 5" 200]
  = Ok (Fin 25).
Proof. vm_compute. reflexivity. Qed.

(** Six samples (the voltage reading is none): sorted they are 5, 20, 30,
    33, 40, 90, and the cut [1:4] keeps 20, 30 and 33. *)
Example six_readings :
  let t name v := (name, Sensor.make (Fin v) "ok" "degrees C" "sensor" None) in
  calculate_rack_temperature
    [t "Temp 1" 90; t "Temp 2" 20; t "Temp 3" 30; t "Temp 4" 40; t "Temp 5" 5;
     t "CPU Temp Volt" 50; t "Inlet temperature" 33]
  = Ok (Fin (277 # 10)).
Proof. vm_compute. reflexivity. Qed.

End TemperatureFacts.

(** ** Dictionaries *)

Module DictFacts.
Section Facts.
Context {K V : Type} `{Key K}.
Implicit Types (d : dict K V) (k : K) (v : V).

Lemma key_eqb_refl k : key_eqb k k = true.
Proof. now apply key_eqb_eq. Qed.

Lemma key_eqb_neq k k' : k <> k' -> key_eqb k k' = false.
Proof.
  intros Hne. apply not_true_iff_false. intros E.
  apply key_eqb_eq in E. contradiction.
Qed.

Lemma get_set_same d k v : Dict.get (Dict.set d k v) k = Some v.
Proof.
  induction d as [|[k' v'] d IH]; cbn [Dict.set Dict.get].
  - now rewrite key_eqb_refl.
  - destruct (key_eqb k' k) eqn:E; cbn [Dict.get]; rewrite E; auto.
Qed.

Lemma get_set_other d k k' v :
  k <> k' -> Dict.get (Dict.set d k v) k' = Dict.get d k'.
Proof.
  intros Hne. induction d as [|[k0 v0] d IH]; cbn [Dict.set Dict.get].
  - now rewrite key_eqb_neq.
  - destruct (key_eqb k0 k) eqn:E; cbn [Dict.get].
    + apply key_eqb_eq in E. subst k0. now rewrite key_eqb_neq.
    + now rewrite IH.
Qed.

Lemma mem_set_same d k v : Dict.mem (Dict.set d k v) k = true.
Proof. unfold Dict.mem. now rewrite get_set_same. Qed.

(** Assignment never drops a key. *)
Lemma mem_set_mono d k k' v :
  Dict.mem d k' = true -> Dict.mem (Dict.set d k v) k' = true.
Proof.
  intros Hm. unfold Dict.mem in *.
  induction d as [|[k0 v0] d IH]; cbn [Dict.set Dict.get] in *; [discriminate|].
  destruct (key_eqb k0 k) eqn:E; cbn [Dict.get];
    destruct (key_eqb k0 k'); auto.
Qed.

(** Assigning to a key the dictionary has keeps its length; a new key
    adds one entry. *)
Lemma length_set d k v :
  List.length (Dict.set d k v)
  = if Dict.mem d k then List.length d else S (List.length d).
Proof.
  unfold Dict.mem.
  induction d as [|[k0 v0] d IH]; cbn [Dict.set Dict.get]; [reflexivity|].
  destruct (key_eqb k0 k) eqn:E; cbn [List.length]; [reflexivity|].
  rewrite IH. now destruct (Dict.get d k).
Qed.

Lemma keys_set d k v :
  Dict.keys (Dict.set d k v)
  = if Dict.mem d k then Dict.keys d else (Dict.keys d ++ [k])%list.
Proof.
  unfold Dict.mem, Dict.keys.
  induction d as [|[k0 v0] d IH]; cbn [Dict.set Dict.get map app]; [reflexivity|].
  destruct (key_eqb k0 k) eqn:E; cbn [map fst]; [reflexivity|].
  rewrite IH. now destruct (Dict.get d k).
Qed.
End Facts.
End DictFacts.

(** ** The loaders *)

Module LoaderFacts.
Import Text Float App Spec FloatFacts DictFacts.

Lemma div_defined (a : pyfloat) (y : Q) :
  Qeq_bool y 0 = false -> exists r, div a (Fin y) = Ok r.
Proof. intros E. unfold div. destruct a; rewrite E; eauto. Qed.

(** [calculate_rack_power] never raises. *)
Lemma rack_power_total (sensors : dict string Sensor.t) :
  exists p, calculate_rack_power sensors = Ok p.
Proof.
  unfold calculate_rack_power.
  destruct (fold_left _ sensors []) as [|x xs]; [eauto|].
  destruct (gt _ _); [|eauto].
  destruct (@div_defined (sum (x :: xs)) 1000 eq_refl) as [r ->].
  cbn [bind]. eauto.
Qed.

(** [calculate_network_metrics] never raises. *)
Lemma network_metrics_total (network_data : dict string Iface.t) :
  exists m, calculate_network_metrics network_data = Ok m.
Proof.
  unfold calculate_network_metrics.
  destruct (map _ network_data) as [|v vs]; [eauto|].
  destruct (@TemperatureFacts.mean_defined (v :: vs)) as [r Hr]; [discriminate|].
  unfold mean in Hr. rewrite Hr. cbn [bind]. eauto.
Qed.

(** *** Rows, names and the count of sensors *)








(** [update_rack] never raises.  A rack without sensors leaves the tables
    as they are; a rack with sensors is entered with the sensors gathered
    and their count. *)
Lemma update_rack_ok e network_data rack_id rack_info g :
  forall d n m state',
    rack_sensors network_data rack_id (RackFile.dataframe rack_info)
      (current_state g) = (d, n, m, state') ->
    exists g',
      update_rack e network_data (rack_id, rack_info) g = (Ok tt, g')
      /\ rack_files g' = rack_files g /\ rng g' = rng g
      /\ current_state g' = state'
      /\ (d = [] -> rack_data g' = rack_data g
                    /\ rack_metadata g' = rack_metadata g
                    /\ sensor_categories g' = sensor_categories g)
      /\ (d <> [] -> exists status temperature power,
            rack_data g' =
            Dict.set (rack_data g) rack_id
              (Rack.make d status temperature power m n (now e))).
Proof.
  intros d n m state' E. unfold update_rack, mbind, gets, modify, lift, ret.
  rewrite E. destruct d as [|item d].
  - eexists. split; [reflexivity|]. cbn. repeat split; congruence.
  - destruct (StatusFacts.rack_status_total (item :: d)) as [status ->].
    destruct (TemperatureFacts.rack_temperature_total (item :: d)) as [t ->].
    destruct (rack_power_total (item :: d)) as [p ->].
    eexists. split; [reflexivity|]. cbn [rack_files rng current_state rack_data
      set_current_state set_rack_data set_rack_metadata set_sensor_categories].
    repeat split; try congruence. intros _. eauto.
Qed.



End LoaderFacts.

(** ** The value of a row *)

Module ValueFacts.
Import Text Float App Spec.

(** C5. The claim has the loader fall back to the first column that no
    role has claimed.  The fallback loop goes by three literal labels
    instead: when no label asks for the value role, the value is parsed
    from the first column not named exactly [Sensor], [Status] or [Units] -
    the column the name was read from included. *)
Theorem C5_fallback_goes_by_literal_labels
    (col : string) (v : cell) (rest : list (string * cell)) :
  first_column is_value_label ((col, v) :: rest) = None ->
  col <> "Sensor" -> col <> "Status" -> col <> "Units" ->
  row_value ((col, v) :: rest) = parse_sensor_value v.
Proof.
  intros Hnone H1 H2 H3. unfold row_value.
  fold is_value_label. rewrite Hnone.
  unfold first_column. cbn [find fst].
  apply String.eqb_neq in H1, H2, H3. rewrite H1, H2, H3. reflexivity.
Qed.

(** A table with the columns [Name] and [Temp]: the name column is the
    first that is not one of the three labels, so the reading 45 is passed
    over and the value is the 1 found in the text 'CPU1 Temp'. *)
Lemma C5_value_taken_from_name_column :
  let row := [("Name", CStr "CPU1 Temp"); ("Temp", CStr "45")] in
  is_name_label "Name" = true
  /\ row_value row = parse_sensor_value (CStr "CPU1 Temp")
  /\ sensor_row row
     = Some ("CPU1 Temp", Sensor.make (Fin 1) "ok" "" "sensor" None)
  /\ parse_sensor_value (CStr "45") = Fin 45.
Proof.
  intros row. split; [reflexivity|]. split.
  - apply (@C5_fallback_goes_by_literal_labels "Name" (CStr "CPU1 Temp")
             [("Temp", CStr "45")]);
      [reflexivity | discriminate | discriminate | discriminate].
  - split; reflexivity.
Defined.

End ValueFacts.

(** ** The network loader *)

Module NetworkFacts.
Import Text Float App Spec FloatFacts DictFacts.

Lemma rne_ge (q : Q) (k : Z) : (inject_Z k <= q)%Q -> (k <= rne q)%Z.
Proof.
  intros H. apply Qfloor_resp_le in H. rewrite Qfloor_Z in H.
  unfold rne. repeat destruct (Qltb _ _); try destruct (Z.even _); lia.
Qed.

Lemma rne_le (q : Q) (k : Z) : (q <= inject_Z k)%Q -> (rne q <= k)%Z.
Proof.
  intros H. pose proof (Qfloor_le q) as Hf.
  assert (Hfk : (Qfloor q <= k)%Z).
  { rewrite Zle_Qle. eapply Qle_trans; eassumption. }
  unfold rne. destruct (Qltb (q - inject_Z (Qfloor q)) (1 # 2)) eqn:E; [exact Hfk|].
  apply Qltb_ge in E.
  assert (Hlt : (Qfloor q < k)%Z).
  { rewrite Zlt_Qlt. eapply Qlt_le_trans; [|exact H].
    apply Qlt_minus_iff. eapply Qlt_le_trans; [|exact E]. reflexivity. }
  destruct (Qltb _ _); [|destruct (Z.even _)]; lia.
Qed.

(** Rounding a value between 10 and 80 to two decimals stays between 10
    and 80. *)
Lemma round2_10_80 (q : Q) :
  (10 <= q <= 80)%Q -> within 10 80 (round (Fin q) 2).
Proof.
  intros [Hlo Hhi]. unfold round. cbn [Z.of_nat Pos.of_succ_nat Pos.succ Z.pow Z.pow_pos Pos.iter Z.mul Pos.mul].
  set (k := rne (q * inject_Z 100)).
  assert (Hk : (1000 <= k <= 8000)%Z).
  { split.
    - apply rne_ge. change (inject_Z 1000) with (10 * inject_Z 100)%Q.
      apply Qmult_le_compat_r; [exact Hlo | discriminate].
    - apply rne_le. change (inject_Z 8000) with (80 * inject_Z 100)%Q.
      apply Qmult_le_compat_r; [exact Hhi | discriminate]. }
  assert (Hq : (10 <= inject_Z k / inject_Z 100 <= 80)%Q).
  { split.
    - apply Qle_shift_div_l; [reflexivity|].
      change (10 * inject_Z 100)%Q with (inject_Z 1000). rewrite <- Zle_Qle. lia.
    - apply Qle_shift_div_r; [reflexivity|].
      change (80 * inject_Z 100)%Q with (inject_Z 8000). rewrite <- Zle_Qle. lia. }
  rewrite of_Q_finite.
  - eexists. split; [reflexivity|]. now rewrite Qred_correct.
  - rewrite Qabs_pos by (eapply Qle_trans; [|apply Hq]; discriminate).
    eapply Qle_lt_trans; [apply Hq|]. unfold Qlt. vm_compute. reflexivity.
Qed.

(** A draw of [random.uniform(10, 80)] lies in [10, 80). *)
Lemma uniform_10_80 (e : env) (pos : nat) :
  (0 <= random e pos < 1)%Q ->
  exists u, uniform e 10 80 pos = (Fin u, S pos) /\ (10 <= u < 80)%Q.
Proof.
  intros [H0 H1]. unfold uniform.
  set (r := random e pos) in *.
  assert (Hu : (10 <= 10 + (80 - 10) * r < 80)%Q).
  { split.
    - rewrite <- (Qplus_0_r 10) at 1. apply Qplus_le_r.
      apply Qmult_le_0_compat; [discriminate | exact H0].
    - change 80 with (10 + (80 - 10) * 1)%Q at 2. apply Qplus_lt_r.
      apply Qmult_lt_l; [reflexivity | exact H1]. }
  rewrite of_Q_finite.
  - eexists. split; [reflexivity|]. now rewrite Qred_correct.
  - rewrite Qabs_pos by (eapply Qle_trans; [|apply Hu]; discriminate).
    eapply Qlt_trans; [apply Hu|]. unfold Qlt. vm_compute. reflexivity.
Qed.

Lemma sample_entry_placeholder (u : Q) :
  (10 <= u < 80)%Q -> placeholder (sample_entry (Fin u)).
Proof.
  intros Hu. unfold placeholder, sample_entry. cbn [Iface.value Iface.status Iface.units].
  destruct (@round2_10_80 u) as [q [Eq Hq]].
  { split; [apply Hu | apply Qlt_le_weak, Hu]. }
  assert (Hok : lt (Fin u) (Fin 85) = true).
  { apply Qltb_lt. eapply Qlt_trans; [apply Hu | reflexivity]. }
  assert (Hst : throughput_status (round (Fin u) 2) = "ok").
  { rewrite Eq. unfold throughput_status.
    replace (gt (Fin q) (Fin 95)) with false.
    replace (gt (Fin q) (Fin 85)) with false. reflexivity.
    - symmetry. apply Qltb_ge. eapply Qle_trans; [apply Hq | discriminate].
    - symmetry. apply Qltb_ge. eapply Qle_trans; [apply Hq | discriminate]. }
  rewrite Hok, Hst. repeat split; eauto.
  rewrite Eq. exists q. split; [reflexivity | exact Hq].
Qed.

(** The four placeholder interfaces, in the order they are made. *)
Lemma sample_interfaces_spec (e : env) (pos : nat) :
  (forall n, 0 <= random e n < 1)%Q ->
  exists i1 i2 i3 i4,
    sample_interfaces e pos
    = ([("eth1", i1); ("eth2", i2); ("eth3", i3); ("eth4", i4)], (4 + pos)%nat)
    /\ placeholder i1 /\ placeholder i2 /\ placeholder i3 /\ placeholder i4.
Proof.
  intros Hr. unfold sample_interfaces. cbn [fold_left]. unfold sample_interface.
  destruct (@uniform_10_80 e _ (Hr pos)) as [u1 [-> H1]].
  destruct (@uniform_10_80 e _ (Hr (S pos))) as [u2 [-> H2]].
  destruct (@uniform_10_80 e _ (Hr (S (S pos)))) as [u3 [-> H3]].
  destruct (@uniform_10_80 e _ (Hr (S (S (S pos))))) as [u4 [-> H4]].
  exists (sample_entry (Fin u1)), (sample_entry (Fin u2)),
         (sample_entry (Fin u3)), (sample_entry (Fin u4)).
  split; [reflexivity|]. auto using sample_entry_placeholder.
Qed.

(** C8, as amended.  For a network table whose rows yield no interface
    the loader enters exactly the four interfaces [eth1] .. [eth4] and an
    interface count of 4.  Each value is a draw from [10, 80) rounded to
    two decimals, so it lies in the closed interval from 10 to 80; each
    status is 'ok', which is also what the thresholds (above 95 critical,
    above 85 warning) give for the value. *)
Theorem C8_placeholder_interfaces
    (e : env) (pos : nat) (network_files : dict Z NetFile.t)
    (filename : string) (rack_id : Z) (df : Frame.t) :
  (forall n, 0 <= random e n < 1)%Q ->
  extract_rack_number filename = Some rack_id ->
  parsed_interfaces df = [] ->
  exists i1 i2 i3 i4 metrics,
    load_network_file e (network_files, pos) (filename, Ok df)
    = (Dict.set network_files rack_id
         (NetFile.make filename
            [("eth1", i1); ("eth2", i2); ("eth3", i3); ("eth4", i4)]
            df 4 metrics),
       (4 + pos)%nat)
    /\ placeholder i1 /\ placeholder i2 /\ placeholder i3 /\ placeholder i4.
Proof.
  intros Hr Hid Hnone. unfold load_network_file. rewrite Hid.
  unfold parsed_interfaces in Hnone.
  destruct (fold_left network_row (Frame.iterrows df) ([], 0%Z)) as [nd ic].
  cbn [fst] in Hnone. subst nd.
  destruct (sample_interfaces_spec e pos Hr) as [i1 [i2 [i3 [i4 [-> Hp]]]]].
  destruct (LoaderFacts.network_metrics_total
              [("eth1", i1); ("eth2", i2); ("eth3", i3); ("eth4", i4)])
    as [metrics ->].
  exists i1, i2, i3, i4, metrics. split; [reflexivity | exact Hp].
Qed.

(** With the generator at 0.5 every placeholder carries 45.0. *)
Lemma C8_idle_table_at_half :
  exists i1 i2 i3 i4 metrics,
    load_network_file (Sample.idle_network (1 # 2)) ([], 0%nat)
      ("rack1_network.csv", Ok Sample.idle_table)
    = (Dict.set [] 1%Z
         (NetFile.make "rack1_network.csv"
            [("eth1", i1); ("eth2", i2); ("eth3", i3); ("eth4", i4)]
            Sample.idle_table 4 metrics),
       (4 + 0)%nat)
    /\ placeholder i1 /\ placeholder i2 /\ placeholder i3 /\ placeholder i4.
Proof.
  apply (@C8_placeholder_interfaces (Sample.idle_network (1 # 2)) 0 []
           "rack1_network.csv" 1%Z Sample.idle_table).
  - intros n. split; [discriminate | reflexivity].
  - reflexivity.
  - reflexivity.
Defined.

(** C8, as stated, fails: the stored value is the draw rounded to two
    decimals.  When [random.random()] answers 0.99999 the draw is 79.9993,
    inside [10, 80), and every interface is entered with 80.0, which is
    not below 80. *)
Lemma C8_rounded_draw_reaches_80 :
  let e := Sample.idle_network (99999 # 100000) in
  (forall n, 0 <= random e n < 1)%Q
  /\ parsed_interfaces Sample.idle_table = []
  /\ fst (uniform e 10 80 0) = Fin (799993 # 10000)
  /\ (exists file,
        fst (load_network_data e 0) = Ok [(1%Z, file)]
        /\ map (fun i : string * Iface.t => (fst i, Iface.value (snd i)))
             (NetFile.data file)
           = [("eth1", Fin 80); ("eth2", Fin 80); ("eth3", Fin 80); ("eth4", Fin 80)])
  /\ lt (Fin 80) (Fin 80) = false.
Proof.
  intros e. split; [intros n; split; [discriminate | reflexivity]|].
  split; [reflexivity|]. split; [vm_compute; reflexivity|].
  split; [|reflexivity].
  eexists. split; vm_compute; reflexivity.
Qed.

End NetworkFacts.

(** ** Reloading *)

Module ReloadFacts.
Import Text Float App Spec DictFacts LoaderFacts.

(** The four published tables of [g'] are those of [g]. *)
Definition same_tables (g g' : globals) : Prop :=
  rack_data g' = rack_data g /\ rack_metadata g' = rack_metadata g
  /\ sensor_categories g' = sensor_categories g
  /\ current_state g' = current_state g.

Lemma same_tables_refl g : same_tables g g.
Proof. repeat split. Qed.

Lemma same_tables_trans g1 g2 g3 :
  same_tables g1 g2 -> same_tables g2 g3 -> same_tables g1 g3.
Proof. unfold same_tables. intuition congruence. Qed.

(** A loop whose body always returns, returns; what every turn preserves
    is preserved. *)
Lemma for_each_ok {X} (R : globals -> globals -> Prop) (xs : list X)
    (body : X -> M unit) :
  (forall g, R g g) -> (forall a b c, R a b -> R b c -> R a c) ->
  (forall x g, In x xs -> exists g', body x g = (Ok tt, g') /\ R g g') ->
  forall g, exists g', for_each xs body g = (Ok tt, g') /\ R g g'.
Proof.
  intros Hrefl Htrans. induction xs as [|x xs IH]; intros Hbody g.
  - exists g. split; [reflexivity | apply Hrefl].
  - destruct (Hbody x g (or_introl eq_refl)) as [g1 [E1 R1]].
    destruct (IH (fun y h Hy => Hbody y h (or_intror Hy)) g1) as [g2 [E2 R2]].
    exists g2. split; [|eapply Htrans; eassumption].
    cbn [for_each]. unfold mbind. rewrite E1. exact E2.
Qed.

(** [load_network_data] raises only when the network folder cannot be
    listed, and then with the generator where it was. *)
Lemma load_network_data_cases e pos :
  (exists msg, NETWORK_FOLDER e = Unlistable msg
               /\ load_network_data e pos = (Err msg, pos))
  \/ (exists nf pos', load_network_data e pos = (Ok nf, pos')).
Proof.
  unfold load_network_data. destruct (NETWORK_FOLDER e) as [|msg|files].
  - right. eauto.
  - left. eauto.
  - right. destruct (fold_left _ _ _). eauto.
Qed.

(** [update_rack_data] either raises at once, because the network folder
    cannot be listed, having changed none of the tables, or returns. *)
Lemma update_rack_data_cases e g :
  (exists msg g', NETWORK_FOLDER e = Unlistable msg
                  /\ update_rack_data e g = (Err msg, g')
                  /\ same_tables g g' /\ rack_files g' = rack_files g)
  \/ (exists g', update_rack_data e g = (Ok tt, g')).
Proof.
  unfold update_rack_data, mbind, gets.
  destruct (load_network_data_cases e (rng g)) as [[msg [Hf ->]] | [nf [pos' ->]]].
  - left. exists msg. eexists. split; [exact Hf|]. split; [reflexivity|].
    split; [repeat split | reflexivity].
  - right. cbn [rack_files set_rng].
    destruct (@for_each_ok _ (fun _ _ => True) (rack_files g) (update_rack e nf))
      with (g := set_rng pos' g) as [g' [E _]]; auto.
    + intros [rack_id rack_info] h _.
      destruct (rack_sensors nf rack_id (RackFile.dataframe rack_info)
                  (current_state h)) as [[[d n] m] st] eqn:Es.
      destruct (@update_rack_ok e nf rack_id rack_info h _ _ _ _ Es) as [h' [Eh _]].
      eauto.
    + eauto.
Qed.

(** Drawing a sample rack returns and touches none of the tables. *)
Lemma sample_rack_ok e rack_id g :
  exists g', sample_rack e rack_id g = (Ok tt, g') /\ same_tables g g'.
Proof.
  unfold sample_rack, mbind, gets, modify.
  destruct (fold_left (sample_sensor e) sample_sensors ([], rng g)) as [sd pos].
  destruct (sample_interfaces e pos) as [nd pos'].
  eexists. split; [reflexivity | repeat split].
Qed.

Lemma in_set {K V} `{Key K} (d : dict K V) (k : K) (v : V) (x : K * V) :
  In x (Dict.set d k v) -> snd x = v \/ In x d.
Proof.
  induction d as [|[k0 v0] d IH]; cbn [Dict.set].
  - intros [<- | []]. now left.
  - destruct (key_eqb k0 k); intros [<- | Hin]; cbn [In snd]; auto.
    destruct (IH Hin); auto.
Qed.

(** Every rack number of the first pass has at least one file. *)
Lemma assign_rack_nonempty files :
  forall rack_numbers,
    Forall (fun item : Z * list string => snd item <> []) rack_numbers ->
    Forall (fun item : Z * list string => snd item <> [])
      (fold_left assign_rack files rack_numbers).
Proof.
  induction files as [|file files IH]; intros rn Hrn; [exact Hrn|].
  cbn [fold_left]. apply IH. unfold assign_rack.
  destruct (extract_rack_number (fst file)) as [rack_id|]; [|exact Hrn].
  destruct (rack_id =? 0)%Z; [exact Hrn|].
  apply Forall_forall. intros x Hx. apply in_set in Hx. destruct Hx as [-> | Hx].
  - intros Hnil. apply app_eq_nil in Hnil. destruct Hnil; discriminate.
  - rewrite Forall_forall in Hrn. now apply Hrn.
Qed.

Lemma load_rack_file_ok files item g :
  snd item <> [] ->
  exists g', load_rack_file files item g = (Ok tt, g') /\ same_tables g g'.
Proof.
  destruct item as [rack_id filenames]. cbn [snd]. intros Hne.
  unfold load_rack_file. destruct filenames as [|filename rest]; [congruence|].
  destruct (read_csv files filename); unfold modify, ret;
    eexists; (split; [reflexivity | repeat split]).
Qed.

Lemma create_sample_racks_cases e g :
  (exists msg g', NETWORK_FOLDER e = Unlistable msg
                  /\ create_sample_racks e g = (Err msg, g')
                  /\ same_tables g g')
  \/ (exists g', create_sample_racks e g = (Ok tt, g')).
Proof.
  unfold create_sample_racks, mbind.
  destruct (@for_each_ok _ same_tables [1; 2; 3; 4; 5]%Z (sample_rack e)
              same_tables_refl same_tables_trans
              (fun x h _ => sample_rack_ok e x h) g) as [g1 [-> S1]].
  destruct (update_rack_data_cases e g1)
    as [[msg [g2 [Hf [-> [S2 _]]]]] | [g2 ->]].
  - left. exists msg, g2. split; [exact Hf|]. split; [reflexivity|].
    eapply same_tables_trans; eassumption.
  - right. eauto.
Qed.

(** [load_rack_data] raises only when a folder cannot be listed; the
    tables it cleared at its start are then still empty, and the
    current-value mapping is as it was. *)
Lemma load_rack_data_failure e g msg g' :
  load_rack_data e g = (Err msg, g') ->
  rack_data g' = [] /\ rack_metadata g' = [] /\ sensor_categories g' = []
  /\ current_state g' = current_state g
  /\ (CSV_FOLDER e = Unlistable msg \/ NETWORK_FOLDER e = Unlistable msg).
Proof.
  unfold load_rack_data, mbind, modify.
  set (g0 := set_sensor_categories [] (set_rack_metadata []
               (set_rack_data [] (set_rack_files [] g)))).
  assert (H0 : rack_data g0 = [] /\ rack_metadata g0 = []
               /\ sensor_categories g0 = []
               /\ current_state g0 = current_state g) by (repeat split).
  assert (Hkeep : forall h, same_tables g0 h ->
            rack_data h = [] /\ rack_metadata h = [] /\ sensor_categories h = []
            /\ current_state h = current_state g).
  { unfold same_tables. intros h. intuition congruence. }
  clearbody g0.
  assert (Hsample : create_sample_racks e g0 = (Err msg, g') ->
            rack_data g' = [] /\ rack_metadata g' = [] /\ sensor_categories g' = []
            /\ current_state g' = current_state g
            /\ (CSV_FOLDER e = Unlistable msg \/ NETWORK_FOLDER e = Unlistable msg)).
  { intros E. destruct (create_sample_racks_cases e g0)
      as [[msg' [h [Hf [E' S]]]] | [h E']];
      pose proof (eq_trans (eq_sym E') E) as X; [|discriminate X].
    injection X as <- <-. destruct (Hkeep h S) as [A [B [C D]]].
    repeat (split; [assumption|]). right. exact Hf. }
  destruct (CSV_FOLDER e) as [|msg0|files] eqn:Ecsv.
  - exact Hsample.
  - unfold lift. intros E. injection E as <- <-.
    destruct H0 as [A [B [C D]]]. auto 10.
  - destruct (csv_files files) as [|f csvs] eqn:Ecsvs; [exact Hsample|].
    set (rack_numbers := fold_left assign_rack (f :: csvs) []).
    assert (Hne : Forall (fun item : Z * list string => snd item <> []) rack_numbers)
      by (apply assign_rack_nonempty; constructor).
    destruct (@for_each_ok _ same_tables rack_numbers (load_rack_file files)
                same_tables_refl same_tables_trans) with (g := g0)
      as [g1 [E1 S1]].
    { intros x h Hx. apply load_rack_file_ok.
      rewrite Forall_forall in Hne. now apply Hne. }
    unfold mbind. rewrite E1.
    destruct (update_rack_data_cases e g1)
      as [[msg' [g2 [Hf [-> [S2 _]]]]] | [g2 ->]]; [|discriminate].
    intros E. injection E as <- <-.
    destruct (Hkeep g2 (same_tables_trans S1 S2)) as [A [B [C D]]]. auto 10.
Qed.

(** C6, as amended.  A reload that fails reports the cause and rolls
    nothing back: the rack table, the rack metadata and the sensor category
    index, cleared when the reload began, are empty; the current-value
    mapping is as before.  The only failures are a sensor folder or a
    network folder that cannot be listed. *)
Theorem C6_failed_reload_leaves_cleared_tables
    (e : env) (g : globals) (message : string) (g' : globals) :
  reload_data e g = (Failure message, g') ->
  rack_data g' = [] /\ rack_metadata g' = [] /\ sensor_categories g' = []
  /\ current_state g' = current_state g
  /\ (CSV_FOLDER e = Unlistable message \/ NETWORK_FOLDER e = Unlistable message).
Proof.
  unfold reload_data.
  destruct (load_rack_data e g) as [[[]|msg] h] eqn:E; [discriminate|].
  intros H. injection H as <- <-. exact (load_rack_data_failure e g E).
Qed.

(** A reload over the five published sample racks, with a sensor folder
    that cannot be listed. *)
Lemma C6_reload_of_unlistable_folder :
  exists g',
    reload_data Sample.unlistable Sample.published
      = (Failure "PermissionError", g')
    /\ rack_data g' = [] /\ rack_metadata g' = [] /\ sensor_categories g' = []
    /\ current_state g' = current_state Sample.published
    /\ (CSV_FOLDER Sample.unlistable = Unlistable "PermissionError"
        \/ NETWORK_FOLDER Sample.unlistable = Unlistable "PermissionError").
Proof.
  eexists. split; [reflexivity|].
  apply (@C6_failed_reload_leaves_cleared_tables Sample.unlistable
           Sample.published "PermissionError"). reflexivity.
Defined.

(** C6, as stated, fails: after the failed reload the published rack
    table, metadata and category index are gone. *)
Lemma C6_failed_reload_drops_published_state :
  Dict.keys (rack_data Sample.published) = [1; 2; 3; 4; 5]%Z
  /\ Dict.keys (rack_metadata Sample.published) = [1; 2; 3; 4; 5]%Z
  /\ Dict.keys (sensor_categories Sample.published)
     = ["temperature"; "cooling"; "other"; "power"]
  /\ fst (reload_data Sample.unlistable Sample.published)
     = Failure "PermissionError"
  /\ rack_data (snd (reload_data Sample.unlistable Sample.published)) = []
  /\ rack_metadata (snd (reload_data Sample.unlistable Sample.published)) = []
  /\ sensor_categories (snd (reload_data Sample.unlistable Sample.published)) = [].
Proof. repeat split; vm_compute; reflexivity. Qed.

End ReloadFacts.

(** ** The sample racks *)

Module SampleFacts.
Import Text Float App Spec DictFacts LoaderFacts ReloadFacts.

(** The keys of a dictionary after assigning to [ks] in turn. *)
Definition assign_keys {K} `{Key K} (keys : list K) (ks : list K) : list K :=
  fold_left (fun acc k => if existsb (key_eqb k) acc then acc else (acc ++ [k])%list)
    ks keys.

Lemma mem_keys {K V} `{Key K} (d : dict K V) (k : K) :
  Dict.mem d k = existsb (key_eqb k) (Dict.keys d).
Proof.
  unfold Dict.mem, Dict.keys. induction d as [|[k0 v0] d IH]; [reflexivity|].
  cbn [Dict.get map fst existsb].
  destruct (key_eqb k0 k) eqn:E.
  - apply key_eqb_eq in E. subst. now rewrite key_eqb_refl.
  - rewrite IH. destruct (key_eqb k k0) eqn:E'; [|reflexivity].
    apply key_eqb_eq in E'. subst. now rewrite key_eqb_refl in E.
Qed.

Lemma keys_set_assign {K V} `{Key K} (d : dict K V) (k : K) (v : V) :
  Dict.keys (Dict.set d k v) = assign_keys (Dict.keys d) [k].
Proof. unfold assign_keys. cbn [fold_left]. now rewrite keys_set, mem_keys. Qed.

Lemma values_set {K V} `{Key K} (P : V -> Prop) (d : dict K V) (k : K) (v : V) :
  Forall P (Dict.values d) -> P v -> Forall P (Dict.values (Dict.set d k v)).
Proof.
  intros Hd Hv. unfold Dict.values in *. apply Forall_forall. intros x Hx.
  apply in_map_iff in Hx. destruct Hx as [[k' v'] [<- Hin]].
  apply in_set in Hin. cbn [snd] in *. destruct Hin as [-> | Hin]; [exact Hv|].
  rewrite Forall_forall in Hd. apply Hd. apply in_map_iff. now exists (k', v').
Qed.

(** A row of the sample frame yields its sensor under its own name. *)
Lemma sample_row_read (name : string) (x : Sensor.t) :
  strip name = name -> truthy name = true ->
  exists entry,
    sensor_row (Frame.labelled ["Sensor"; "Value"; "Units"; "Status"]
                  [CStr name; CFloat (Sensor.value x); CStr (Sensor.units x);
                   CStr (Sensor.status x)])
    = Some (name, entry) /\ from_table entry.
Proof.
  intros Hs Ht. unfold sensor_row.
  change (first_column _ (Frame.labelled _ _)) with (Some (CStr name)).
  cbn [Py.str]. rewrite Hs, Ht. cbn [negb].
  eexists. split; [reflexivity | split; reflexivity].
Qed.

(** Reading the sample frame of a dictionary with clean names enters a
    sensor for every entry, under the same names in the same order. *)
Lemma read_sample_rows (sd : dict string Sensor.t) :
  Forall (fun k => strip k = k /\ truthy k = true) (Dict.keys sd) ->
  forall d n st,
    Forall from_table (Dict.values d) ->
    exists d' st',
      fold_left read_row (Frame.iterrows (sample_frame sd)) (d, n, st)
      = (d', (n + Z.of_nat (List.length sd))%Z, st')
      /\ Dict.keys d' = assign_keys (Dict.keys d) (Dict.keys sd)
      /\ Forall from_table (Dict.values d').
Proof.
  unfold Frame.iterrows, sample_frame. cbn [Frame.columns Frame.rows].
  induction sd as [|[name x] sd IH]; intros Hk d n st Hd.
  - exists d, st. cbn. rewrite Z.add_0_r. auto.
  - cbn [map fold_left fst snd Dict.keys] in *. inversion Hk as [|? ? [Hs Ht] Hk']; subst.
    destruct (sample_row_read x Hs Ht) as [entry [Hrow Hentry]].
    unfold read_row at 2. rewrite Hrow.
    destruct (IH Hk' (Dict.set d name entry) (n + 1)%Z
                (Dict.set st name (Sensor.value entry))
                (values_set _ _ _ Hd Hentry)) as [d' [st' [E [Hkeys Hvals]]]].
    exists d', st'. rewrite E. split; [f_equal; f_equal; cbn [List.length]; lia|].
    split; [|exact Hvals]. rewrite Hkeys, keys_set_assign. reflexivity.
Qed.

(** Each turn of the loop over [sample_sensors] assigns to the sensor's
    name. *)
Lemma sample_sensor_sets e d pos sensor :
  exists entry pos',
    sample_sensor e (d, pos) sensor = (Dict.set d sensor entry, pos').
Proof.
  unfold sample_sensor, uniform.
  repeat match goal with
         | |- context [if ?b then _ else _] => destruct b
         end; eauto.
Qed.

Lemma sample_sensors_keys e :
  forall names d pos,
    exists sd pos',
      fold_left (sample_sensor e) names (d, pos) = (sd, pos')
      /\ Dict.keys sd = assign_keys (Dict.keys d) names.
Proof.
  induction names as [|name names IH]; intros d pos.
  - exists d, pos. split; reflexivity.
  - cbn [fold_left].
    destruct (sample_sensor_sets e d pos name) as [entry [pos1 ->]].
    destruct (IH (Dict.set d name entry) pos1) as [sd [pos' [-> Hk]]].
    exists sd, pos'. split; [reflexivity|].
    rewrite Hk, keys_set_assign. reflexivity.
Qed.

(** A rack file made by [sample_rack]: the frame of a dictionary whose
    names are those of [sample_sensors]. *)
Definition sample_file (f : RackFile.t) : Prop :=
  exists sd, RackFile.dataframe f = sample_frame sd
             /\ Dict.keys sd = sample_sensors.

Lemma sample_rack_files e rack_id g :
  exists g' f,
    sample_rack e rack_id g = (Ok tt, g') /\ same_tables g g'
    /\ rack_files g' = Dict.set (rack_files g) rack_id f /\ sample_file f.
Proof.
  cbv beta iota delta [sample_rack mbind gets modify].
  destruct (sample_sensors_keys e sample_sensors [] (rng g))
    as [sd [pos [E Hk]]].
  set (drawn := fold_left (sample_sensor e) sample_sensors _).
  assert (Ed : drawn = (sd, pos)) by exact E.
  clearbody drawn. subst drawn.
  destruct (sample_interfaces e pos) as [nd pos']. cbv beta zeta.
  eexists. eexists. split; [reflexivity|]. split; [repeat split|].
  split; [reflexivity|]. exists sd. split; [reflexivity | exact Hk].
Qed.

(** What [update_rack] enters for a sample file when there is no network
    data. *)
Lemma update_sample_rack e rack_id f g :
  sample_file f ->
  exists g' rack,
    update_rack e [] (rack_id, f) g = (Ok tt, g')
    /\ rack_data g' = Dict.set (rack_data g) rack_id rack
    /\ sample_rack_entered rack.
Proof.
  intros [sd [Hdf Hk]].
  destruct (@read_sample_rows sd) with (d := @nil (string * Sensor.t))
    (n := 0%Z) (st := current_state g) as [d' [st' [E [Hkeys Hvals]]]].
  { rewrite Hk. repeat constructor. }
  { constructor. }
  assert (Hlen : List.length sd = 10%nat).
  { unfold Dict.keys in Hk. apply (f_equal (@List.length _)) in Hk.
    rewrite length_map in Hk. exact Hk. }
  assert (Es : rack_sensors [] rack_id (RackFile.dataframe f) (current_state g)
               = (d', 10%Z, Metrics.empty, st')).
  { unfold rack_sensors. rewrite Hdf.
    set (r := fold_left read_row _ _).
    assert (Er : r = (d', (0 + Z.of_nat (List.length sd))%Z, st')) by exact E.
    clearbody r. subst r. rewrite Hlen. reflexivity. }
  rewrite Hk in Hkeys. change (assign_keys _ sample_sensors) with sample_sensors in Hkeys.
  destruct (@update_rack_ok e [] rack_id f g _ _ _ _ Es)
    as [g' [Hrun [_ [_ [_ [_ Hfull]]]]]].
  destruct Hfull as [status [temperature [power Hdata]]].
  { intros ->. discriminate. }
  exists g'. eexists. split; [exact Hrun|]. split; [exact Hdata|].
  repeat split; try assumption; reflexivity.
Qed.

Lemma update_sample_racks e files :
  Forall (fun item : Z * RackFile.t => sample_file (snd item)) files ->
  forall g,
    Forall sample_rack_entered (Dict.values (rack_data g)) ->
    exists g',
      for_each files (update_rack e []) g = (Ok tt, g')
      /\ Dict.keys (rack_data g') = assign_keys (Dict.keys (rack_data g)) (map fst files)
      /\ Forall sample_rack_entered (Dict.values (rack_data g')).
Proof.
  induction files as [|[rack_id f] files IH]; intros Hf g Hg.
  - exists g. repeat split. exact Hg.
  - inversion Hf as [|? ? Hf1 Hf2]; subst. cbn [snd] in Hf1.
    destruct (update_sample_rack e rack_id g Hf1) as [g1 [rack [E1 [D1 R1]]]].
    destruct (IH Hf2 g1) as [g' [E [Hk Hv]]].
    { rewrite D1. now apply values_set. }
    exists g'. cbn [for_each]. unfold mbind. rewrite E1.
    split; [exact E|]. split; [|exact Hv].
    rewrite Hk, D1, keys_set_assign. reflexivity.
Qed.

Lemma sample_racks_files e ids :
  forall g,
    Forall sample_file (Dict.values (rack_files g)) ->
    exists g',
      for_each ids (sample_rack e) g = (Ok tt, g') /\ same_tables g g'
      /\ Dict.keys (rack_files g') = assign_keys (Dict.keys (rack_files g)) ids
      /\ Forall sample_file (Dict.values (rack_files g')).
Proof.
  induction ids as [|rack_id ids IH]; intros g Hg.
  - exists g. repeat split. exact Hg.
  - destruct (sample_rack_files e rack_id g) as [g1 [f [E1 [S1 [F1 Hf]]]]].
    destruct (IH g1) as [g' [E [S [Hk Hv]]]].
    { rewrite F1. now apply values_set. }
    exists g'. cbn [for_each]. unfold mbind. rewrite E1.
    split; [exact E|]. split; [eapply same_tables_trans; eassumption|].
    split; [|exact Hv]. rewrite Hk, F1, keys_set_assign. reflexivity.
Qed.

Lemma no_network_files e pos :
  no_csv (NETWORK_FOLDER e) -> load_network_data e pos = (Ok [], pos).
Proof.
  unfold load_network_data. intros [-> | [files [-> ->]]]; reflexivity.
Qed.

(** With no file to be found, [create_sample_racks] enters the five sample
    racks, none with an interface. *)
Lemma create_sample_racks_spec e g :
  no_csv (NETWORK_FOLDER e) ->
  rack_files g = [] -> rack_data g = [] ->
  exists g',
    create_sample_racks e g = (Ok tt, g')
    /\ Dict.keys (rack_data g') = [1; 2; 3; 4; 5]%Z
    /\ Forall sample_rack_entered (Dict.values (rack_data g')).
Proof.
  intros Hn Hf Hd. unfold create_sample_racks, mbind.
  destruct (@sample_racks_files e [1; 2; 3; 4; 5]%Z g) as [g1 [-> [S1 [K1 V1]]]].
  { rewrite Hf. constructor. }
  unfold update_rack_data, mbind, gets. rewrite (@no_network_files e _ Hn).
  cbn [rack_files set_rng].
  destruct (@update_sample_racks e (rack_files g1)) with (g := set_rng (rng g1) g1)
    as [g' [E [Hk Hv]]].
  { unfold Dict.values in V1. rewrite Forall_map in V1. exact V1. }
  { cbn [rack_data set_rng]. destruct S1 as [-> _]. rewrite Hd. constructor. }
  exists g'. split; [exact E|]. split; [|exact Hv].
  rewrite Hk. cbn [rack_data set_rng]. destruct S1 as [-> _]. rewrite Hd.
  change (map fst (rack_files g1)) with (Dict.keys (rack_files g1)).
  rewrite K1, Hf. reflexivity.
Qed.

(** C7.  The claim has each of the five placeholder racks carry four
    synthetic network interfaces.  When no input file can be found - no
    sensor file and no network file - the load enters exactly the racks 1
    to 5, each with the ten sample sensors under their fixed names and
    with no interface at all: the interfaces [create_sample_racks] draws
    are a local of its loop that nothing stores. *)
Theorem C7_sample_racks_carry_no_interface (e : env) (g : globals) :
  no_csv (CSV_FOLDER e) -> no_csv (NETWORK_FOLDER e) ->
  exists g',
    load_rack_data e g = (Ok tt, g')
    /\ Dict.keys (rack_data g') = [1; 2; 3; 4; 5]%Z
    /\ Forall sample_rack_entered (Dict.values (rack_data g')).
Proof.
  intros Hc Hn. unfold load_rack_data, mbind, modify.
  set (g0 := set_sensor_categories [] _).
  assert (Hs : exists g', create_sample_racks e g0 = (Ok tt, g')
             /\ Dict.keys (rack_data g') = [1; 2; 3; 4; 5]%Z
             /\ Forall sample_rack_entered (Dict.values (rack_data g')))
    by (apply create_sample_racks_spec; [exact Hn | reflexivity | reflexivity]).
  destruct Hc as [-> | [files [-> ->]]]; exact Hs.
Qed.

(** The load with neither folder present, from empty globals. *)
Lemma C7_load_without_folders :
  exists g',
    load_rack_data Sample.no_files Sample.empty = (Ok tt, g')
    /\ Dict.keys (rack_data g') = [1; 2; 3; 4; 5]%Z
    /\ Forall sample_rack_entered (Dict.values (rack_data g')).
Proof.
  apply (@C7_sample_racks_carry_no_interface Sample.no_files Sample.empty);
    left; reflexivity.
Defined.

End SampleFacts.

(** ** Regular expressions *)

Module ReFacts.
Import Text Re TextFacts.










End ReFacts.

(** ** Numerals *)

Module NumeralFacts.
Import Text Re TextFacts ReFacts Spec.






End NumeralFacts.

(** ** [float()] on numerals *)

Module PyFacts.
Import Text Re Py TextFacts ReFacts Spec NumeralFacts.

























End PyFacts.

(** ** The value parser *)

(** ** The value parser takes the longest numeral *)

Module LongestFacts.
Import Text Re TextFacts ReFacts Spec NumeralFacts Longest.

(** *** Runs *)






(** *** The greedy loop *)





(** *** The pattern of the value parser, part by part *)


















(** *** No numeral is longer *)











End LongestFacts.

Module ParserFacts.
Import Text Re Py Float App TextFacts ReFacts Spec NumeralFacts PyFacts FloatFacts.
Import Longest LongestFacts.









End ParserFacts.

(** ** More on the network loader *)

Module NetworkLoadFacts.
Import Text Float App Spec Extra FloatFacts DictFacts LoaderFacts.

Lemma set_nonempty {K V} `{Key K} (d : dict K V) (k : K) (v : V) :
  Dict.set d k v <> [].
Proof. destruct d as [|[k0 v0] d]; cbn [Dict.set]; [|destruct (key_eqb k0 k)]; discriminate. Qed.

(** A row leaves the interfaces entered so far as they are, or enters
    one with a positive throughput. *)
Lemma network_row_parsed nd ic row :
  Forall parsed_entry (Dict.values nd) ->
  Forall parsed_entry (Dict.values (fst (network_row (nd, ic) row))).
Proof.
  intros Hnd. unfold network_row.
  destruct (first_present name_terms row) as [v|]; [|exact Hnd].
  destruct (negb (truthy _)); [exact Hnd|].
  set (t := if eqb _ (Fin 0) then _ else _).
  destruct (gt t (Fin 0)) eqn:Et; [|exact Hnd].
  cbn [fst]. apply SampleFacts.values_set; [exact Hnd|].
  repeat split. exact Et.
Qed.

Lemma network_rows_parsed rows :
  forall nd ic,
    Forall parsed_entry (Dict.values nd) ->
    Forall parsed_entry (Dict.values (fst (fold_left network_row rows (nd, ic)))).
Proof.
  induction rows as [|row rows IH]; intros nd ic Hnd; [exact Hnd|].
  cbn [fold_left]. pose proof (@network_row_parsed nd ic row Hnd) as H.
  destruct (network_row (nd, ic) row) as [nd' ic']. now apply IH.
Qed.

(** X2. Every interface the rows of a network table yield has a
    throughput strictly above zero, the status its throughput earns by the
    thresholds, and the unit Mbps: a row with a zero, negative or
    unreadable throughput enters nothing. *)
Theorem parsed_interfaces_positive (df : Frame.t) :
  Forall parsed_entry (Dict.values (parsed_interfaces df)).
Proof.
  unfold parsed_interfaces. apply network_rows_parsed. constructor.
Qed.

(** The count of interfaces is never behind the dictionary. *)
Lemma network_rows_count rows :
  forall nd ic,
    (Dict.size nd <= ic)%Z ->
    (Dict.size (fst (fold_left network_row rows (nd, ic)))
     <= snd (fold_left network_row rows (nd, ic)))%Z.
Proof.
  induction rows as [|row rows IH]; intros nd ic H; [exact H|].
  cbn [fold_left].
  assert (H' : (Dict.size (fst (network_row (nd, ic) row))
                <= snd (network_row (nd, ic) row))%Z).
  { unfold network_row.
    destruct (first_present name_terms row) as [v|]; [|exact H].
    destruct (negb (truthy _)); [exact H|].
    destruct (gt _ (Fin 0)); [|exact H].
    cbn [fst snd]. unfold Dict.size in *. rewrite length_set.
    destruct (Dict.mem nd _); lia. }
  destruct (network_row (nd, ic) row) as [nd' ic']. now apply IH.
Qed.

(** The four placeholders, whatever the generator answers. *)
Lemma sample_interfaces_shape (e : env) (pos : nat) :
  exists i1 i2 i3 i4,
    sample_interfaces e pos
    = ([("eth1", i1); ("eth2", i2); ("eth3", i3); ("eth4", i4)], (4 + pos)%nat).
Proof.
  exists (sample_entry (fst (uniform e 10 80 pos))),
         (sample_entry (fst (uniform e 10 80 (1 + pos)))),
         (sample_entry (fst (uniform e 10 80 (2 + pos)))),
         (sample_entry (fst (uniform e 10 80 (3 + pos)))).
  reflexivity.
Qed.

Lemma load_network_file_entered e nf pos file :
  Forall entered (Dict.values nf) ->
  Forall entered (Dict.values (fst (load_network_file e (nf, pos) file))).
Proof.
  intros Hnf. unfold load_network_file. destruct file as [filename content].
  destruct (extract_rack_number filename) as [rack_id|]; [|exact Hnf].
  destruct content as [df|msg]; [|exact Hnf].
  destruct (fold_left network_row (Frame.iterrows df) ([], 0%Z)) as [nd ic] eqn:E.
  assert (Hc : (Dict.size nd <= ic)%Z).
  { pose proof (@network_rows_count (Frame.iterrows df) [] 0%Z ltac:(cbn; lia)) as Hc.
    set (r := fold_left _ _ _) in Hc.
    assert (Er : r = (nd, ic)) by exact E. clearbody r. subst r. exact Hc. }
  destruct nd as [|item nd].
  - destruct (sample_interfaces_shape e pos) as (i1 & i2 & i3 & i4 & ->).
    destruct (calculate_network_metrics _) as [m|] eqn:Em; [|exact Hnf].
    cbn [fst]. apply SampleFacts.values_set; [exact Hnf|].
    repeat split; cbn [NetFile.data NetFile.interface_count NetFile.metrics];
      [discriminate | cbn; lia | exact Em].
  - destruct (calculate_network_metrics _) as [m|] eqn:Em; [|exact Hnf].
    cbn [fst]. apply SampleFacts.values_set; [exact Hnf|].
    repeat split; cbn [NetFile.data NetFile.interface_count NetFile.metrics];
      [discriminate | exact Hc | exact Em].
Qed.

(** X1. Whatever the network folder holds, no network file is entered
    without an interface: every entry of the answer of
    [load_network_data] has at least one interface (parsed, or the four
    placeholders), an interface count that covers them, and the summary
    computed from just these interfaces. *)
Theorem network_files_never_empty
    (e : env) (pos : nat) (network_files : dict Z NetFile.t) (pos' : nat) :
  load_network_data e pos = (Ok network_files, pos') ->
  Forall entered (Dict.values network_files).
Proof.
  unfold load_network_data. destruct (NETWORK_FOLDER e) as [|msg|files].
  - intros H. injection H as <- _. constructor.
  - discriminate.
  - assert (H : forall fs nf p, Forall entered (Dict.values nf) ->
              Forall entered
                (Dict.values (fst (fold_left (load_network_file e) fs (nf, p))))).
    { induction fs as [|f fs IH]; intros nf p Hnf; [exact Hnf|].
      cbn [fold_left]. pose proof (@load_network_file_entered e nf p f Hnf) as H1.
      destruct (load_network_file e (nf, p) f) as [nf1 p1]. now apply IH. }
    specialize (H (csv_files files) [] pos ltac:(constructor)).
    destruct (fold_left _ _ _) as [nf p]. intros E. injection E as <- _. exact H.
Qed.

(** The table of [Sample.idle_network] at 0.5: one file, four interfaces. *)
Lemma idle_network_entered :
  Forall entered
    (Dict.values
       [(1%Z, NetFile.make "rack1_network.csv"
                [("eth1", sample_entry (Fin 45)); ("eth2", sample_entry (Fin 45));
                 ("eth3", sample_entry (Fin 45)); ("eth4", sample_entry (Fin 45))]
                Sample.idle_table 4
                (Metrics.make (Fin 180) (Fin 45) (Fin 45) 4 "normal"))]).
Proof.
  apply (@network_files_never_empty (Sample.idle_network (1 # 2)) 0 _ 4).
  vm_compute. reflexivity.
Defined.

(** *** The summary of a rack's interfaces *)

Lemma lt_trans (a b c : pyfloat) :
  lt a b = true -> lt b c = true -> lt a c = true.
Proof.
  destruct a, b, c; cbn; try reflexivity; try discriminate.
  rewrite !Qltb_lt. apply Qlt_trans.
Qed.

(** Among numbers, [b < y] and not [m < y] give [b < m]. *)
Lemma lt_le_trans (b y m : pyfloat) :
  is_nan y = false -> is_nan m = false ->
  lt b y = true -> lt m y = false -> lt b m = true.
Proof.
  destruct b, y, m; cbn; try reflexivity; try discriminate.
  rewrite !Qltb_lt, Qltb_ge. intros _ _. apply Qlt_le_trans.
Qed.

(** The maximum of numbers exceeds a bound exactly when one of them does. *)
Lemma max_of_exceeds (b : pyfloat) (vs : list pyfloat) :
  forall v,
    is_nan v = false -> Forall (fun x => is_nan x = false) vs ->
    (gt (max_of v vs) b = true <-> Exists (fun x => gt x b = true) (v :: vs)).
Proof.
  unfold max_of. induction vs as [|y vs IH]; intros v Hv Hvs; cbn [fold_left].
  - rewrite Exists_cons, Exists_nil. tauto.
  - inversion Hvs as [|? ? Hy Hvs']; subst.
    destruct (gt y v) eqn:E.
    + rewrite (IH y Hy Hvs'), !Exists_cons. split; [tauto|].
      intros [H | H]; [left | exact H].
      unfold gt in *. eapply lt_trans; eassumption.
    + rewrite (IH v Hv Hvs'), !Exists_cons. split; [tauto|].
      intros [H | [H | H]]; auto. left.
      unfold gt in *. eapply lt_le_trans; [exact Hy | exact Hv | exact H | exact E].
Qed.

Lemma gt_not_nan (x b : pyfloat) : gt x b = true -> is_nan x = false.
Proof. destruct x, b; cbn; try reflexivity; discriminate. Qed.

Lemma gt_95_85 (x : pyfloat) : gt x (Fin 95) = true -> gt x (Fin 85) = true.
Proof. unfold gt. apply lt_trans. reflexivity. Qed.

(** The status and the count of a summary, by the largest value. *)
Lemma metrics_by_largest
    (network_data : dict string Iface.t) (m : Metrics.t) :
  Forall (fun i => is_nan (Iface.value i) = false) (Dict.values network_data) ->
  calculate_network_metrics network_data = Ok m ->
  let above b := Exists (fun i => gt (Iface.value i) (Fin b) = true)
                   (Dict.values network_data) in
  Metrics.interface_count m = Dict.size network_data
  /\ (Metrics.status m = "critical" <-> above 95)
  /\ (Metrics.status m = "warning" <-> ~ above 95 /\ above 85)
  /\ (Metrics.status m = "normal" <-> ~ above 85).
Proof.
  intros Hnum E above. unfold calculate_network_metrics in E.
  assert (Hex : forall b, above b <->
            Exists (fun x => gt x (Fin b) = true)
              (map (fun item : string * Iface.t => Iface.value (snd item)) network_data)).
  { intros b. unfold above, Dict.values. rewrite !Exists_exists. split.
    - intros [i [Hi Hg]]. apply in_map_iff in Hi. destruct Hi as [item [<- Hin]].
      exists (Iface.value (snd item)). split; [|exact Hg].
      apply in_map_iff. now exists item.
    - intros [x [Hx Hg]]. apply in_map_iff in Hx. destruct Hx as [item [<- Hin]].
      exists (snd item). split; [|exact Hg]. apply in_map_iff. now exists item. }
  assert (Hlen : Dict.size network_data
                 = Z.of_nat (List.length
                     (map (fun item : string * Iface.t => Iface.value (snd item))
                        network_data)))
    by (unfold Dict.size; now rewrite length_map).
  assert (Hn : Forall (fun x => is_nan x = false)
                 (map (fun item : string * Iface.t => Iface.value (snd item)) network_data)).
  { unfold Dict.values in Hnum. rewrite Forall_map in Hnum. rewrite Forall_map.
    exact Hnum. }
  assert (H9585 : above 95 -> above 85).
  { unfold above. rewrite !Exists_exists. intros [i [Hi Hg]]. exists i.
    split; [exact Hi | now apply gt_95_85]. }
  destruct (map _ network_data) as [|v vs].
  - injection E as <-. cbn [Metrics.status Metrics.interface_count Metrics.empty].
    assert (H0 : forall b, ~ above b) by (intros b H; apply Hex in H; inversion H).
    split; [now rewrite Hlen|].
    pose proof (H0 95) as A. pose proof (H0 85) as B.
    repeat split; intros; try easy; try tauto.
  - destruct (div _ _) as [avg|]; [|discriminate]. unfold bind in E.
    inversion Hn as [|? ? Hv Hvs]; subst.
    pose proof (@max_of_exceeds (Fin 95) vs v Hv Hvs) as H95.
    pose proof (@max_of_exceeds (Fin 85) vs v Hv Hvs) as H85.
    rewrite <- Hex in H95, H85.
    remember (gt (max_of v vs) (Fin 95)) as c95 eqn:E95.
    remember (gt (max_of v vs) (Fin 85)) as c85 eqn:E85.
    clear E95 E85.
    injection E as <-. cbn [Metrics.status Metrics.interface_count].
    split; [now rewrite Hlen|].
    destruct c95.
    + assert (A : above 95) by (apply H95; reflexivity).
      repeat split; intros; try easy; try tauto.
    + assert (A : ~ above 95) by (intros A; apply H95 in A; discriminate).
      destruct c85.
      * assert (B : above 85) by (apply H85; reflexivity).
        repeat split; intros; try easy; try tauto.
      * assert (B : ~ above 85) by (intros B; apply H85 in B; discriminate).
        repeat split; intros; try easy; try tauto.
Qed.

Lemma graded_status (i : Iface.t) :
  graded i ->
  (Iface.status i = "critical" <-> gt (Iface.value i) (Fin 95) = true)
  /\ (Iface.status i = "warning" <->
        gt (Iface.value i) (Fin 95) = false /\ gt (Iface.value i) (Fin 85) = true)
  /\ (Iface.status i = "ok" <-> gt (Iface.value i) (Fin 85) = false).
Proof.
  intros [_ ->]. unfold throughput_status.
  destruct (gt (Iface.value i) (Fin 95)) eqn:E95.
  - rewrite (gt_95_85 _ E95). repeat split; intros; easy.
  - destruct (gt (Iface.value i) (Fin 85)); repeat split; intros; easy.
Qed.

(** X3. The summary of a rack's interfaces agrees with the interfaces'
    own statuses: when every interface carries the status its throughput
    earns, the summary counts all of them, is 'critical' exactly when some
    interface is critical, 'warning' exactly when none is critical and some
    is in warning, and 'normal' exactly when every interface is ok. *)
Theorem summary_is_worst_interface
    (network_data : dict string Iface.t) (m : Metrics.t) :
  Forall graded (Dict.values network_data) ->
  calculate_network_metrics network_data = Ok m ->
  let some status := Exists (fun i => Iface.status i = status)
                       (Dict.values network_data) in
  Metrics.interface_count m = Dict.size network_data
  /\ (Metrics.status m = "critical" <-> some "critical")
  /\ (Metrics.status m = "warning" <-> ~ some "critical" /\ some "warning")
  /\ (Metrics.status m = "normal" <->
        Forall (fun i => Iface.status i = "ok") (Dict.values network_data)).
Proof.
  intros Hg E some.
  assert (Hn : Forall (fun i => is_nan (Iface.value i) = false)
                 (Dict.values network_data)).
  { revert Hg. apply Forall_impl. now intros i [H _]. }
  destruct (@metrics_by_largest network_data m Hn E) as (Hc & H95 & Hw & H85).
  rewrite Forall_forall in Hg.
  assert (A95 : some "critical" <->
            Exists (fun i => gt (Iface.value i) (Fin 95) = true)
              (Dict.values network_data)).
  { unfold some. rewrite !Exists_exists.
    split; intros [i [Hi H]]; exists i; (split; [exact Hi|]);
      now apply (@graded_status i (Hg i Hi)). }
  assert (A85 : Exists (fun i => gt (Iface.value i) (Fin 85) = true)
                  (Dict.values network_data)
                <-> ~ Forall (fun i => Iface.status i = "ok")
                      (Dict.values network_data)).
  { split.
    - intros Hex Hall. apply Exists_exists in Hex. destruct Hex as [i [Hi H]].
      rewrite Forall_forall in Hall. specialize (Hall i Hi).
      apply (@graded_status i (Hg i Hi)) in Hall. congruence.
    - intros Hnot. apply neg_Forall_Exists_neg in Hnot.
      + apply Exists_exists in Hnot. destruct Hnot as [i [Hi H]].
        apply Exists_exists. exists i. split; [exact Hi|].
        destruct (gt (Iface.value i) (Fin 85)) eqn:E85; [reflexivity|].
        exfalso. apply H. now apply (@graded_status i (Hg i Hi)).
      + intros i. destruct (string_dec (Iface.status i) "ok"); auto. }
  assert (D : {Forall (fun i => Iface.status i = "ok") (Dict.values network_data)}
              + {~ Forall (fun i => Iface.status i = "ok") (Dict.values network_data)}).
  { apply Forall_dec. intros i. apply string_dec. }
  split; [exact Hc|]. split; [rewrite H95; symmetry; exact A95|]. split.
  - rewrite Hw, <- A95. split.
    + intros [Hnc H]. split; [exact Hnc|].
      unfold some. apply Exists_exists. apply Exists_exists in H.
      destruct H as [i [Hi H]]. exists i. split; [exact Hi|].
      apply (@graded_status i (Hg i Hi)). split; [|exact H].
      destruct (gt (Iface.value i) (Fin 95)) eqn:E95; [|reflexivity].
      exfalso. apply Hnc. apply A95. apply Exists_exists. eauto.
    + intros [Hnc H]. split; [exact Hnc|].
      unfold some in H. apply Exists_exists in H. apply Exists_exists.
      destruct H as [i [Hi H]]. exists i. split; [exact Hi|].
      now apply (@graded_status i (Hg i Hi)) in H.
  - rewrite H85. destruct D as [Hall | Hnot]; split; intros H; tauto.
Qed.

(** The single interface [eth0] at 96: critical, and so is the summary. *)
Lemma eth0_at_96 :
  let network_data := [("eth0", Iface.make (Fin 96) "critical" "Mbps")] in
  Metrics.status (Metrics.make (Fin 96) (Fin 96) (Fin 96) 1 "critical") = "critical"
  <-> Exists (fun i => Iface.status i = "critical") (Dict.values network_data).
Proof.
  intros network_data.
  refine (proj1 (proj2 (@summary_is_worst_interface network_data _ _ _))).
  - repeat constructor.
  - vm_compute. reflexivity.
Defined.

End NetworkLoadFacts.

(** ** The registry after a load *)

Module RegistryFacts.
Import Text Float App Spec Extra FloatFacts DictFacts LoaderFacts ReloadFacts.

Lemma in_mem {K V} `{Key K} (d : dict K V) (k : K) (v : V) :
  In (k, v) d -> Dict.mem d k = true.
Proof.
  unfold Dict.mem. induction d as [|[k0 v0] d IH]; [intros []|].
  cbn [In Dict.get]. intros [E | Hin].
  - injection E as -> ->. now rewrite key_eqb_refl.
  - destruct (key_eqb k0 k); [reflexivity | now apply IH].
Qed.

Lemma mem_set_inv {K V} `{Key K} (d : dict K V) (k k' : K) (v : V) :
  Dict.mem (Dict.set d k v) k' = true -> k' = k \/ Dict.mem d k' = true.
Proof.
  unfold Dict.mem. induction d as [|[k0 v0] d IH]; cbn [Dict.set Dict.get].
  - destruct (key_eqb k k') eqn:E; [|discriminate].
    apply key_eqb_eq in E. auto.
  - destruct (key_eqb k0 k) eqn:E; cbn [Dict.get].
    + destruct (key_eqb k0 k'); auto.
    + destruct (key_eqb k0 k'); auto.
Qed.

(** A loop whose body returns and keeps [P], returns and keeps [P]. *)
Lemma for_each_inv {X} (P : globals -> Prop) (xs : list X) (body : X -> M unit) :
  (forall x g, In x xs -> P g -> exists g', body x g = (Ok tt, g') /\ P g') ->
  forall g, P g -> exists g', for_each xs body g = (Ok tt, g') /\ P g'.
Proof.
  induction xs as [|x xs IH]; intros Hbody g Hg.
  - exists g. split; [reflexivity | exact Hg].
  - destruct (Hbody x g (or_introl eq_refl) Hg) as [g1 [E1 P1]].
    destruct (IH (fun y h Hy => Hbody y h (or_intror Hy)) g1 P1) as [g2 [E2 P2]].
    exists g2. split; [|exact P2]. cbn [for_each]. unfold mbind. now rewrite E1.
Qed.

Lemma read_rows_names rows :
  forall d n st name,
    Dict.mem st name = true ->
    Dict.mem (snd (fold_left read_row rows (d, n, st))) name = true.
Proof.
  induction rows as [|row rows IH]; intros d n st name Hm; [exact Hm|].
  cbn [fold_left]. unfold read_row at 2.
  destruct (sensor_row row) as [[sensor_name entry]|]; apply IH; [|exact Hm].
  now apply mem_set_mono.
Qed.

Lemma rack_sensors_names nd rack_id df st name :
  Dict.mem st name = true ->
  Dict.mem (snd (rack_sensors nd rack_id df st)) name = true.
Proof.
  intros Hm. unfold rack_sensors.
  pose proof (@read_rows_names (Frame.iterrows df) [] 0%Z st name Hm) as H.
  set (r := fold_left read_row _ _) in *. destruct r as [[d n] st'].
  cbn [snd] in H. destruct (Dict.get nd rack_id); [destruct (fold_left _ _ _)|]; exact H.
Qed.

(** What one turn of the loop of [update_rack_data] does. *)
Lemma update_rack_effect e nd rack_id rack_info g :
  Dict.mem (rack_files g) rack_id = true -> consistent e g ->
  exists g',
    update_rack e nd (rack_id, rack_info) g = (Ok tt, g')
    /\ rack_files g' = rack_files g /\ keeps_names g g' /\ consistent e g'.
Proof.
  intros Hfile [Hroll Hmem].
  pose proof (fun name => @rack_sensors_names nd rack_id
                            (RackFile.dataframe rack_info) (current_state g) name) as Hn.
  unfold update_rack, mbind, gets, modify, lift, ret.
  destruct (rack_sensors nd rack_id (RackFile.dataframe rack_info) (current_state g))
    as [[[d n] m] st] eqn:E. cbn [snd] in Hn.
  destruct d as [|item d].
  - eexists. split; [reflexivity|]. split; [reflexivity|]. split; [exact Hn|].
    split; [exact Hroll | exact Hmem].
  - destruct (StatusFacts.rack_status_total (item :: d)) as [status Es].
    destruct (TemperatureFacts.rack_temperature_total (item :: d)) as [t Et].
    destruct (rack_power_total (item :: d)) as [p Ep].
    rewrite Es, Et, Ep.
    eexists. split; [reflexivity|]. split; [reflexivity|]. split; [exact Hn|].
    cbn [rack_data rack_metadata rack_files set_rack_data set_rack_metadata
         set_sensor_categories set_current_state]. split.
    + apply SampleFacts.values_set; [exact Hroll|].
      repeat split; cbn [Rack.sensors Rack.status Rack.temperature Rack.power
                         Rack.timestamp]; try assumption. discriminate.
    + intros id Hid. apply mem_set_inv in Hid. destruct Hid as [-> | Hid].
      * split; [apply mem_set_same | exact Hfile].
      * destruct (Hmem id Hid) as [A B]. split; [now apply mem_set_mono | exact B].
Qed.


Lemma keeps_names_refl g : keeps_names g g.
Proof. intros name H. exact H. Qed.

Lemma keeps_names_trans g1 g2 g3 :
  keeps_names g1 g2 -> keeps_names g2 g3 -> keeps_names g1 g3.
Proof. intros A B name H. apply B, A, H. Qed.

Lemma same_tables_names g g' : same_tables g g' -> keeps_names g g'.
Proof. intros (_ & _ & _ & E) name H. now rewrite E. Qed.

Lemma same_tables_consistent e g g' :
  rack_data g = [] -> same_tables g g' -> consistent e g'.
Proof.
  intros E0 (E & _). rewrite E0 in E. unfold consistent. rewrite E.
  split; [constructor | intros id H; discriminate H].
Qed.

(** [update_rack_data] on a consistent registry: the names stay whatever
    the outcome, and the registry is consistent again when it returns. *)
Lemma update_rack_data_effect e g r g' :
  consistent e g -> update_rack_data e g = (r, g') ->
  keeps_names g g' /\ rack_files g' = rack_files g
  /\ (r = Ok tt -> consistent e g').
Proof.
  intros Hc. unfold update_rack_data, mbind, gets.
  destruct (load_network_data e (rng g)) as [[nd|msg] pos].
  - cbn [rack_files set_rng].
    destruct (@for_each_inv _
                (fun h => consistent e h /\ rack_files h = rack_files g
                          /\ keeps_names g h)
                (rack_files g) (update_rack e nd)) with (g := set_rng pos g)
      as [g1 [E1 (C1 & F1 & N1)]].
    + intros [rack_id rack_info] h Hin (Ch & Fh & Nh).
      destruct (@update_rack_effect e nd rack_id rack_info h) as [h' (E & F & N & C)];
        [rewrite Fh; eapply in_mem; exact Hin | exact Ch |].
      exists h'. split; [exact E|]. split; [exact C|]. split; [congruence|].
      eapply keeps_names_trans; eassumption.
    + split; [exact Hc|]. split; [reflexivity|]. intros name H. exact H.
    + rewrite E1. intros X. injection X as <- <-. auto.
  - intros X. injection X as <- <-. split; [intros name H; exact H|].
    split; [reflexivity | discriminate].
Qed.

(** [load_rack_data]: the names of [current_state] stay whatever the
    outcome, and the registry is consistent when it returns. *)
Lemma load_rack_data_effect e g r g' :
  load_rack_data e g = (r, g') ->
  keeps_names g g' /\ (r = Ok tt -> consistent e g').
Proof.
  unfold load_rack_data, mbind, modify.
  set (g0 := set_sensor_categories [] (set_rack_metadata []
               (set_rack_data [] (set_rack_files [] g)))).
  assert (H0 : rack_data g0 = []) by reflexivity.
  assert (N0 : keeps_names g g0) by (intros name H; exact H).
  assert (Hsample : forall r g', create_sample_racks e g0 = (r, g') ->
            keeps_names g g' /\ (r = Ok tt -> consistent e g')).
  { intros r0 h. unfold create_sample_racks, mbind.
    destruct (@for_each_ok _ same_tables [1; 2; 3; 4; 5]%Z (sample_rack e)
                same_tables_refl same_tables_trans
                (fun x h _ => sample_rack_ok e x h) g0) as [g1 [-> S1]].
    intros E.
    destruct (@update_rack_data_effect e g1 r0 h
                (same_tables_consistent e H0 S1) E) as (N & _ & C).
    split; [|exact C].
    eapply keeps_names_trans; [exact N0|].
    eapply keeps_names_trans; [apply same_tables_names; exact S1 | exact N]. }
  destruct (CSV_FOLDER e) as [|msg|files].
  - apply Hsample.
  - unfold lift. intros X. injection X as <- <-. split; [exact N0 | discriminate].
  - destruct (csv_files files) as [|csv csvs] eqn:Ecsv; [apply Hsample|].
    destruct (@for_each_ok _ same_tables
                (fold_left assign_rack (csv :: csvs) []) (load_rack_file files)
                same_tables_refl same_tables_trans) with (g := g0)
      as [g1 [-> S1]].
    { intros item h Hin. apply load_rack_file_ok.
      pose proof (@assign_rack_nonempty (csv :: csvs) [] (Forall_nil _)) as Hne.
      rewrite Forall_forall in Hne. now apply Hne. }
    intros E.
    destruct (@update_rack_data_effect e g1 r g'
                (same_tables_consistent e H0 S1) E) as (N & _ & C).
    split; [|exact C].
    eapply keeps_names_trans; [exact N0|].
    eapply keeps_names_trans; [apply same_tables_names; exact S1 | exact N].
Qed.

(** X4. A load never forgets a sensor name: whatever its outcome, every
    name of [current_state] before the load is a name of it afterwards.
    The rack tables are cleared and rebuilt; the state table only grows. *)
Theorem current_state_only_grows (e : env) (g : globals) (r : result unit)
    (g' : globals) (name : string) :
  load_rack_data e g = (r, g') ->
  Dict.mem (current_state g) name = true ->
  Dict.mem (current_state g') name = true.
Proof.
  intros E. destruct (load_rack_data_effect e g E) as [N _]. apply N.
Qed.

Lemma stale_name_survives :
  let g := set_current_state [("Old sensor", Fin 1)] Sample.empty in
  Dict.mem (current_state g) "Old sensor" = true
  /\ Dict.mem (current_state (snd (load_rack_data Sample.no_files g)))
       "Old sensor" = true.
Proof.
  split; [reflexivity|].
  apply (@current_state_only_grows Sample.no_files
           (set_current_state [("Old sensor", Fin 1)] Sample.empty)
           (fst (load_rack_data Sample.no_files
                   (set_current_state [("Old sensor", Fin 1)] Sample.empty)))
           (snd (load_rack_data Sample.no_files
                   (set_current_state [("Old sensor", Fin 1)] Sample.empty)))
           "Old sensor").
  - destruct (load_rack_data _ _). reflexivity.
  - reflexivity.
Defined.

(** X5. After a load that returns, every rack of [rack_data] has sensors,
    carries the status, temperature and power that the three calculations
    give on these sensors, is stamped with the time of the load, and has an
    entry in [rack_metadata] and in [rack_files]. *)
Theorem loaded_racks_are_rolled_up (e : env) (g g' : globals) :
  load_rack_data e g = (Ok tt, g') ->
  Forall (rolled_up e) (Dict.values (rack_data g'))
  /\ forall rack_id, Dict.mem (rack_data g') rack_id = true ->
       Dict.mem (rack_metadata g') rack_id = true
       /\ Dict.mem (rack_files g') rack_id = true.
Proof.
  intros E. destruct (load_rack_data_effect e g E) as [_ C]. exact (C eq_refl).
Qed.

Lemma sample_racks_rolled_up :
  Forall (rolled_up Sample.no_files) (Dict.values (rack_data Sample.published))
  /\ forall rack_id, Dict.mem (rack_data Sample.published) rack_id = true ->
       Dict.mem (rack_metadata Sample.published) rack_id = true
       /\ Dict.mem (rack_files Sample.published) rack_id = true.
Proof.
  apply (@loaded_racks_are_rolled_up Sample.no_files Sample.empty Sample.published).
  vm_compute. reflexivity.
Defined.

End RegistryFacts.

(** ** The files of a rack *)

Module FileFacts.
Import Text Float App Spec Extra DictFacts LoaderFacts ReloadFacts RegistryFacts.

(** What the first pass holds for a number, from what it held before. *)
Lemma assign_rack_get (csvs : list (string * result Frame.t)) :
  forall (rack_numbers : dict Z (list string)) (rack_id : Z),
    Dict.get (fold_left assign_rack csvs rack_numbers) rack_id
    = if (rack_id =? 0)%Z then Dict.get rack_numbers rack_id
      else
        match filter (numbered rack_id) (map fst csvs) with
        | [] => Dict.get rack_numbers rack_id
        | names =>
            Some ((match Dict.get rack_numbers rack_id with
                   | Some l => l
                   | None => []
                   end) ++ names)%list
        end.
Proof.
  induction csvs as [|file csvs IH]; intros rn id.
  - cbn [fold_left map filter]. now destruct (id =? 0)%Z.
  - cbn [fold_left map filter]. rewrite IH. clear IH.
    destruct (id =? 0)%Z eqn:E0.
    + apply Z.eqb_eq in E0. subst id. unfold assign_rack.
      destruct (extract_rack_number (fst file)) as [n|]; [|reflexivity].
      destruct (n =? 0)%Z eqn:En; [reflexivity|].
      apply get_set_other. intros ->. discriminate En.
    + unfold assign_rack, numbered at 2.
      destruct (extract_rack_number (fst file)) as [n|]; [|reflexivity].
      destruct (n =? id)%Z eqn:En.
      * apply Z.eqb_eq in En. subst n. rewrite E0, get_set_same.
        destruct (filter (numbered id) (map fst csvs)) as [|name names].
        -- reflexivity.
        -- now rewrite <- app_assoc.
      * destruct (n =? 0)%Z; [reflexivity|].
        rewrite get_set_other; [reflexivity|].
        intros ->. now rewrite Z.eqb_refl in En.
Qed.

Lemma keys_set_nodup {K V} `{Key K} (d : dict K V) (k : K) (v : V) :
  NoDup (Dict.keys d) -> NoDup (Dict.keys (Dict.set d k v)).
Proof.
  intros Hd. rewrite keys_set. destruct (Dict.mem d k) eqn:Em; [exact Hd|].
  rewrite SampleFacts.mem_keys in Em.
  apply NoDup_rev in Hd. rewrite <- (rev_involutive (Dict.keys d ++ [k])).
  apply NoDup_rev. rewrite rev_app_distr. cbn [rev app]. constructor; [|exact Hd].
  intros Hin. apply in_rev in Hin.
  assert (X : existsb (key_eqb k) (Dict.keys d) = true).
  { apply existsb_exists. exists k. split; [exact Hin | apply key_eqb_refl]. }
  congruence.
Qed.

Lemma assign_rack_nodup (csvs : list (string * result Frame.t)) :
  forall rack_numbers : dict Z (list string),
    NoDup (Dict.keys rack_numbers) ->
    NoDup (Dict.keys (fold_left assign_rack csvs rack_numbers)).
Proof.
  induction csvs as [|file csvs IH]; intros rn Hrn; [exact Hrn|].
  cbn [fold_left]. apply IH. unfold assign_rack.
  destruct (extract_rack_number (fst file)) as [n|]; [|exact Hrn].
  destruct (n =? 0)%Z; [exact Hrn|]. now apply keys_set_nodup.
Qed.

Lemma get_absent {K V} `{Key K} (d : dict K V) (k : K) :
  ~ In k (Dict.keys d) -> Dict.get d k = None.
Proof.
  intros Hn. destruct (Dict.get d k) eqn:E; [|reflexivity]. exfalso. apply Hn.
  assert (X : Dict.mem d k = true) by (unfold Dict.mem; now rewrite E).
  rewrite SampleFacts.mem_keys in X. apply existsb_exists in X.
  destruct X as [k' [Hin Ek]]. apply key_eqb_eq in Ek. now subst.
Qed.

(** The second pass, over numbers that are all different. *)
Lemma load_rack_files_get (files : list (string * result Frame.t))
    (items : dict Z (list string)) :
  NoDup (Dict.keys items) ->
  Forall (fun item : Z * list string => snd item <> []) items ->
  forall g, exists g',
    for_each items (load_rack_file files) g = (Ok tt, g')
    /\ same_tables g g'
    /\ forall rack_id,
         Dict.get (rack_files g') rack_id
         = match Dict.get items rack_id with
           | Some filenames =>
               match entry_of files filenames with
               | Some entry => Some entry
               | None => Dict.get (rack_files g) rack_id
               end
           | None => Dict.get (rack_files g) rack_id
           end.
Proof.
  induction items as [|[k names] items IH]; intros Hnd Hne g.
  - exists g. split; [reflexivity|]. split; [apply same_tables_refl | reflexivity].
  - cbn [Dict.keys map fst] in Hnd. inversion Hnd as [|? ? Hk Hnd']. subst.
    inversion Hne as [|? ? Hn Hne']. subst. cbn [snd] in Hn.
    destruct names as [|filename rest]; [congruence|].
    cbn [for_each]. unfold mbind. cbn [load_rack_file].
    destruct (read_csv files filename) as [df|msg] eqn:Er; unfold modify, ret.
    + destruct (IH Hnd' Hne'
                  (set_rack_files
                     (Dict.set (rack_files g) k
                        (RackFile.make filename ("../../Data/Sensor_data/" ++ filename)
                           df (filename :: rest))) g))
        as [g' [E [S G]]].
      exists g'. split; [exact E|]. split.
      { eapply same_tables_trans; [|exact S]. repeat split. }
      intros id. rewrite G. cbn [Dict.get rack_files set_rack_files].
      destruct (key_eqb k id) eqn:Ek.
      * apply key_eqb_eq in Ek. subst id.
        rewrite (@get_absent _ _ _ items k Hk). cbn [entry_of]. rewrite Er.
        apply get_set_same.
      * destruct (Dict.get items id) as [names'|].
        -- destruct (entry_of files names'); [reflexivity|].
           apply get_set_other. intros ->. now rewrite key_eqb_refl in Ek.
        -- apply get_set_other. intros ->. now rewrite key_eqb_refl in Ek.
    + destruct (IH Hnd' Hne' g) as [g' [E [S G]]].
      exists g'. split; [exact E|]. split; [exact S|].
      intros id. rewrite G. cbn [Dict.get].
      destruct (key_eqb k id) eqn:Ek; [|reflexivity].
      apply key_eqb_eq in Ek. subst id.
      rewrite (@get_absent _ _ _ items k Hk). cbn [entry_of]. now rewrite Er.
Qed.

(** X6. When the sensor folder lists at least one CSV file, a load leaves
    in [rack_files], whatever its outcome, exactly this for every number:
    nothing for the number 0 and for a number no file name yields; else the
    entry of the first file, in directory order, whose name yields the
    number, with all such files listed, or nothing when that first file
    cannot be read, even if a later one could. *)
Theorem first_file_of_a_rack_wins (e : env) (g : globals) (r : result unit)
    (g' : globals) (files : list (string * result Frame.t)) (rack_id : Z) :
  CSV_FOLDER e = Listing files -> csv_files files <> [] ->
  load_rack_data e g = (r, g') ->
  Dict.get (rack_files g') rack_id = rack_file_of files rack_id.
Proof.
  intros Hf Hcsv. unfold load_rack_data, mbind, modify. rewrite Hf.
  set (g0 := set_sensor_categories [] (set_rack_metadata []
               (set_rack_data [] (set_rack_files [] g)))).
  destruct (csv_files files) as [|csv csvs] eqn:Ecsv; [congruence|].
  destruct (@load_rack_files_get files (fold_left assign_rack (csv :: csvs) [])
              (@assign_rack_nodup (csv :: csvs) [] (NoDup_nil _))
              (@assign_rack_nonempty (csv :: csvs) [] (Forall_nil _)) g0)
    as [g1 [-> [S1 G1]]].
  intros E.
  destruct (@update_rack_data_effect e g1 r g'
              (@same_tables_consistent e g0 g1 eq_refl S1) E) as (_ & F & _).
  rewrite F, G1, assign_rack_get. unfold rack_file_of, files_of. rewrite Ecsv.
  cbn [Dict.get rack_files g0 set_sensor_categories set_rack_metadata
       set_rack_data set_rack_files].
  destruct (rack_id =? 0)%Z.
  - now destruct (filter _ _).
  - destruct (filter (numbered rack_id) (map fst (csv :: csvs))) as [|name names];
      [reflexivity|].
    cbn [app entry_of]. now destruct (read_csv files name).
Qed.

Lemma second_file_is_not_tried :
  Dict.get (rack_files (snd (load_rack_data Sample.two_files Sample.empty))) 1%Z
  = rack_file_of Sample.listing 1%Z.
Proof.
  apply (@first_file_of_a_rack_wins Sample.two_files Sample.empty
           (fst (load_rack_data Sample.two_files Sample.empty))
           (snd (load_rack_data Sample.two_files Sample.empty))
           Sample.listing 1%Z).
  - reflexivity.
  - discriminate.
  - destruct (load_rack_data _ _). reflexivity.
Defined.

End FileFacts.


(** ** Which file names have a rack number *)

Module RackNumberFacts.
Import Text Re App Spec Extra TextFacts ReFacts.


















End RackNumberFacts.
